(** * Obj3D: indexed local frames and parent/child composition

    Shallow embedding of [src/func/NuevaClase.py] (class [Obj3D]) and the
    properties its specification states about it.

    Modelling decisions.
    - FreeCAD itself is not part of the repository.  Its vectors are an
      abstract carrier [V] with the operations the class calls on them
      ([+], [.sub], [.negative], [DraftVecUtils.scaleTo], the constant
      [V0]); its solids are an abstract carrier [Shape] with
      [fcfun.fuseshplist] and [.cut].  Both are type-class parameters.
      Algebraic identities on vectors are stated under the laws of exact
      arithmetic ([VectorLaws]); no law is assumed elsewhere.  Two
      carriers run the model: vectors on the integer grid, which obey
      those laws, and vectors of IEEE 754 doubles, as FreeCAD has them,
      which show what rounding does.
    - A Python instance is its attribute dictionary: one optional field
      per attribute, reading a missing one raises [AttributeError].
    - The index maps [d_o], [w_o], [h_o] are Python dicts, i.e. mutable
      objects reached through references.  They live in a heap and the
      instance holds their addresses, so that two holders of one dict see
      each other's writes.
    - The child tables are dicts keyed by the child name; they are kept in
      insertion order because [make_parent] iterates over them.
    - [logger.error] appends to a log carried by the store. *)

From Stdlib Require Import ZArith Lia.
From Stdlib Require PrimFloat.
From stdpp Require Import base option list gmap strings pretty.

Local Open Scope Z_scope.

(** ** Python outcomes *)

Inductive exn : Type :=
  | AttributeError (attr : string)
  | KeyError
  | TypeError.

Inductive outcome (A : Type) : Type :=
  | Return (a : A)
  | Raise (e : exn).
Arguments Return {A} a.
Arguments Raise {A} e.

(** ** The geometry backend (FreeCAD), as an interface *)

Class Vector (V : Type) : Type := {
  V0 : V;                          (* fcfun.V0, FreeCAD.Vector(0,0,0) *)
  vec_add : V -> V -> V;           (* a + b *)
  vec_sub : V -> V -> V;           (* a.sub(b) *)
  vec_negative : V -> V;           (* a.negative() *)
  scaleTo : V -> Z -> V            (* DraftVecUtils.scaleTo(a, l) *)
}.

(** Exact arithmetic: vectors under [+] form an abelian group, [sub] is
    addition of the opposite. *)
Class VectorLaws (V : Type) `{Vector V} : Prop := {
  vec_add_comm : forall a b : V, vec_add a b = vec_add b a;
  vec_add_assoc : forall a b c : V,
    vec_add (vec_add a b) c = vec_add a (vec_add b c);
  vec_add_V0 : forall a : V, vec_add a V0 = a;
  vec_add_negative : forall a : V, vec_add a (vec_negative a) = V0;
  vec_sub_add : forall a b : V, vec_sub a b = vec_add a (vec_negative b)
}.

Class ShapeKernel (Shape : Type) : Type := {
  fuseshplist : list Shape -> Shape;   (* fcfun.fuseshplist(shp_list) *)
  cut : Shape -> Shape -> Shape        (* a.cut(b) *)
}.

(** ** Dicts keyed by a child name, in insertion order *)

(** A child name is a Python string or [None] (the default of
    [add_child]'s [child_name]). *)
Definition pyname : Type := option string.

Definition pydict (A : Type) : Type := list (pyname * A).

Fixpoint dict_setitem {A} (k : pyname) (v : A) (d : pydict A) : pydict A :=
  match d with
  | [] => [(k, v)]
  | (k', v') :: d' =>
      if decide (k' = k) then (k', v) :: d'
      else (k', v') :: dict_setitem k v d'
  end.

Fixpoint dict_get {A} (k : pyname) (d : pydict A) : option A :=
  match d with
  | [] => None
  | (k', v') :: d' => if decide (k' = k) then Some v' else dict_get k d'
  end.

Definition dict_keys {A} (d : pydict A) : list pyname := d.*1.

Definition dict_values {A} (d : pydict A) : list A := d.*2.

(** ** Addresses of index maps *)

Definition loc : Type := positive.

(** The record [add_child] builds with
    [dict(child_d_o = ..., child_w_o = ..., child_h_o = ..., child_shp = ...)]:
    the three index maps are stored as the references they are. *)
Record ChildRecord (Shape : Type) : Type := mkChildRecord {
  child_d_o : loc;
  child_w_o : loc;
  child_h_o : loc;
  child_shp : Shape
}.
Arguments mkChildRecord {Shape} _ _ _ _.
Arguments child_d_o {Shape} _.
Arguments child_w_o {Shape} _.
Arguments child_h_o {Shape} _.
Arguments child_shp {Shape} _.

(** ** A concrete backend, to run the model on *)

(** Vectors on the integer grid. *)
Record Zvec : Type := mkZvec { vx : Z; vy : Z; vz : Z }.

Definition Zvec_add (a b : Zvec) : Zvec :=
  mkZvec (vx a + vx b) (vy a + vy b) (vz a + vz b).

Definition Zvec_sub (a b : Zvec) : Zvec :=
  mkZvec (vx a - vx b) (vy a - vy b) (vz a - vz b).

Definition Zvec_negative (a : Zvec) : Zvec :=
  mkZvec (- vx a) (- vy a) (- vz a).

(** Modelled from the spec: [DraftVecUtils.scaleTo] belongs to FreeCAD and
    is not in the repository.  The spec has it return the unit vector
    along its argument and fall back to a fixed vector on a zero-length
    one; here a zero-length vector comes back as it is and any other is
    scaled to length [l], the quotients rounded to the grid (exact for a
    vector along a coordinate axis). *)
Definition Zvec_scaleTo (u : Zvec) (l : Z) : Zvec :=
  let len := Z.sqrt (vx u * vx u + vy u * vy u + vz u * vz u) in
  if len =? 0 then u
  else mkZvec (vx u * l / len) (vy u * l / len) (vz u * l / len).

#[global] Instance Zvec_Vector : Vector Zvec := {|
  V0 := mkZvec 0 0 0;
  vec_add := Zvec_add;
  vec_sub := Zvec_sub;
  vec_negative := Zvec_negative;
  scaleTo := Zvec_scaleTo
|}.

(** Vectors as FreeCAD has them: three IEEE 754 binary64 coordinates. *)
Record Fvec : Type := mkFvec {
  fx : PrimFloat.float;
  fy : PrimFloat.float;
  fz : PrimFloat.float
}.

Definition Fvec_add (a b : Fvec) : Fvec :=
  mkFvec (PrimFloat.add (fx a) (fx b)) (PrimFloat.add (fy a) (fy b))
         (PrimFloat.add (fz a) (fz b)).

Definition Fvec_sub (a b : Fvec) : Fvec :=
  mkFvec (PrimFloat.sub (fx a) (fx b)) (PrimFloat.sub (fy a) (fy b))
         (PrimFloat.sub (fz a) (fz b)).

Definition Fvec_negative (a : Fvec) : Fvec :=
  mkFvec (PrimFloat.opp (fx a)) (PrimFloat.opp (fy a)) (PrimFloat.opp (fz a)).

(** An integer as a double (exact below 2^53). *)
Definition float_of_Z (z : Z) : PrimFloat.float :=
  match z with
  | Z0 => PrimFloat.zero
  | Zpos p => Pos.iter_op PrimFloat.add p PrimFloat.one
  | Zneg p => PrimFloat.opp (Pos.iter_op PrimFloat.add p PrimFloat.one)
  end.

(** The double nearest to the fraction [n / d]. *)
Definition ratio (n d : Z) : PrimFloat.float :=
  PrimFloat.div (float_of_Z n) (float_of_Z d).

(** The vector [(x, y, z)] with integer coordinates, as doubles. *)
Definition Fvec_of_Z (x y z : Z) : Fvec :=
  mkFvec (float_of_Z x) (float_of_Z y) (float_of_Z z).

(** Modelled from the spec: [DraftVecUtils.scaleTo] belongs to FreeCAD and
    is not in the repository.  As for [Zvec_scaleTo], a zero-length vector
    comes back as it is and any other is scaled to length [l]. *)
Definition Fvec_scaleTo (u : Fvec) (l : Z) : Fvec :=
  let len := PrimFloat.sqrt
               (PrimFloat.add
                  (PrimFloat.add (PrimFloat.mul (fx u) (fx u))
                                 (PrimFloat.mul (fy u) (fy u)))
                  (PrimFloat.mul (fz u) (fz u))) in
  if PrimFloat.eqb len PrimFloat.zero then u
  else
    let a := PrimFloat.div (float_of_Z l) len in
    mkFvec (PrimFloat.mul (fx u) a) (PrimFloat.mul (fy u) a)
           (PrimFloat.mul (fz u) a).

#[global] Instance Fvec_Vector : Vector Fvec := {|
  V0 := mkFvec PrimFloat.zero PrimFloat.zero PrimFloat.zero;
  vec_add := Fvec_add;
  vec_sub := Fvec_sub;
  vec_negative := Fvec_negative;
  scaleTo := Fvec_scaleTo
|}.

(** Solids as the terms that build them. *)
Unset Elimination Schemes.
Inductive solid : Type :=
  | Primitive (id : nat)
  | Fuse (parts : list solid)
  | Cut (body tool : solid).
Set Elimination Schemes.

#[global] Instance solid_ShapeKernel : ShapeKernel solid := {|
  fuseshplist := Fuse;
  cut := Cut
|}.

Section Obj3D.
Context {V Shape : Type} `{Vector V} `{ShapeKernel Shape}.

(** ** The store: heap of index maps, allocation counter, log *)

Record store : Type := mkStore {
  heap : gmap loc (gmap Z V);
  next : loc;
  log : list string
}.

(** A computation runs on a store; an exception keeps the store it was
    raised in. *)
Definition M (A : Type) : Type := store -> outcome A * store.

Definition ret {A} (a : A) : M A := fun s => (Return a, s).

Definition raise {A} (e : exn) : M A := fun s => (Raise e, s).

Definition bind {A B} (m : M A) (k : A -> M B) : M B :=
  fun s => match m s with
           | (Return a, s') => k a s'
           | (Raise e, s') => (Raise e, s')
           end.

Notation "x <- m ;; k" := (bind m (fun x => k))
  (at level 100, m at next level, right associativity).
Notation "m ;;; k" := (bind m (fun _ => k))
  (at level 100, right associativity).

(** [try: body / except KeyError: handler / else: orelse]. *)
Definition try_except_KeyError {A B}
    (body : M A) (handler : M B) (orelse : A -> M B) : M B :=
  fun s => match body s with
           | (Return a, s') => orelse a s'
           | (Raise KeyError, s') => handler s'
           | (Raise e, s') => (Raise e, s')
           end.

Definition getattr {A} (attr : string) (field : option A) : M A :=
  match field with
  | Some a => ret a
  | None => raise (AttributeError attr)
  end.

(** The dict at an address; an address nothing was allocated at reads as
    the empty dict (no instance built by [__init__] holds one). *)
Definition deref (s : store) (l : loc) : gmap Z V := heap s !!! l.

(** [{}] *)
Definition new_dict : M loc :=
  fun s => (Return (next s),
            {| heap := <[next s := ∅]> (heap s);
               next := Pos.succ (next s);
               log := log s |}).

(** [d[k]] *)
Definition getitem (l : loc) (k : Z) : M V :=
  fun s => match deref s l !! k with
           | Some v => (Return v, s)
           | None => (Raise KeyError, s)
           end.

(** [d[k] = v] *)
Definition setitem (l : loc) (k : Z) (v : V) : M unit :=
  fun s => (Return tt,
            {| heap := <[l := <[k := v]> (deref s l)]> (heap s);
               next := next s;
               log := log s |}).

Definition logger_error (msg : string) : M unit :=
  fun s => (Return tt,
            {| heap := heap s; next := next s; log := log s ++ [msg] |}).

(** [a + b] on what the resolvers return: a vector, or [None] after a
    failed lookup. *)
Definition py_add (a b : option V) : M V :=
  match a, b with
  | Some x, Some y => ret (vec_add x y)
  | _, _ => raise TypeError
  end.

(** ** Instances *)

Record Obj3D : Type := mkObj3D {
  d_o : option loc;
  w_o : option loc;
  h_o : option loc;
  dict_child : option (pydict (ChildRecord Shape));
  dict_child_sum : option (pydict (ChildRecord Shape));
  dict_child_res : option (pydict (ChildRecord Shape));
  name : option pyname;
  axis_h : option V;
  axis_d : option V;
  axis_w : option V;
  pos_h : option Z;
  pos_d : option Z;
  pos_w : option Z;
  d0_cen : option Z;
  w0_cen : option Z;
  h0_cen : option Z;
  pos : option V;
  pos_o : option V;
  pos_o_adjust : option V;
  shp : option Shape
}.

(** An instance before any attribute is assigned. *)
Definition blank : Obj3D :=
  mkObj3D None None None None None None None None None None
          None None None None None None None None None None.

(** [self.attr = x], one definition per attribute the class assigns. *)
Definition with_d_o (x : loc) (self : Obj3D) : Obj3D :=
  {| d_o := Some x; w_o := w_o self; h_o := h_o self;
     dict_child := dict_child self; dict_child_sum := dict_child_sum self;
     dict_child_res := dict_child_res self; name := name self;
     axis_h := axis_h self; axis_d := axis_d self; axis_w := axis_w self;
     pos_h := pos_h self; pos_d := pos_d self; pos_w := pos_w self;
     d0_cen := d0_cen self; w0_cen := w0_cen self; h0_cen := h0_cen self;
     pos := pos self; pos_o := pos_o self; pos_o_adjust := pos_o_adjust self;
     shp := shp self |}.

Definition with_w_o (x : loc) (self : Obj3D) : Obj3D :=
  {| d_o := d_o self; w_o := Some x; h_o := h_o self;
     dict_child := dict_child self; dict_child_sum := dict_child_sum self;
     dict_child_res := dict_child_res self; name := name self;
     axis_h := axis_h self; axis_d := axis_d self; axis_w := axis_w self;
     pos_h := pos_h self; pos_d := pos_d self; pos_w := pos_w self;
     d0_cen := d0_cen self; w0_cen := w0_cen self; h0_cen := h0_cen self;
     pos := pos self; pos_o := pos_o self; pos_o_adjust := pos_o_adjust self;
     shp := shp self |}.

Definition with_h_o (x : loc) (self : Obj3D) : Obj3D :=
  {| d_o := d_o self; w_o := w_o self; h_o := Some x;
     dict_child := dict_child self; dict_child_sum := dict_child_sum self;
     dict_child_res := dict_child_res self; name := name self;
     axis_h := axis_h self; axis_d := axis_d self; axis_w := axis_w self;
     pos_h := pos_h self; pos_d := pos_d self; pos_w := pos_w self;
     d0_cen := d0_cen self; w0_cen := w0_cen self; h0_cen := h0_cen self;
     pos := pos self; pos_o := pos_o self; pos_o_adjust := pos_o_adjust self;
     shp := shp self |}.

Definition with_dict_child (x : pydict (ChildRecord Shape)) (self : Obj3D) : Obj3D :=
  {| d_o := d_o self; w_o := w_o self; h_o := h_o self; dict_child := Some x;
     dict_child_sum := dict_child_sum self;
     dict_child_res := dict_child_res self; name := name self;
     axis_h := axis_h self; axis_d := axis_d self; axis_w := axis_w self;
     pos_h := pos_h self; pos_d := pos_d self; pos_w := pos_w self;
     d0_cen := d0_cen self; w0_cen := w0_cen self; h0_cen := h0_cen self;
     pos := pos self; pos_o := pos_o self; pos_o_adjust := pos_o_adjust self;
     shp := shp self |}.

Definition with_dict_child_sum (x : pydict (ChildRecord Shape)) (self : Obj3D) : Obj3D :=
  {| d_o := d_o self; w_o := w_o self; h_o := h_o self;
     dict_child := dict_child self; dict_child_sum := Some x;
     dict_child_res := dict_child_res self; name := name self;
     axis_h := axis_h self; axis_d := axis_d self; axis_w := axis_w self;
     pos_h := pos_h self; pos_d := pos_d self; pos_w := pos_w self;
     d0_cen := d0_cen self; w0_cen := w0_cen self; h0_cen := h0_cen self;
     pos := pos self; pos_o := pos_o self; pos_o_adjust := pos_o_adjust self;
     shp := shp self |}.

Definition with_dict_child_res (x : pydict (ChildRecord Shape)) (self : Obj3D) : Obj3D :=
  {| d_o := d_o self; w_o := w_o self; h_o := h_o self;
     dict_child := dict_child self; dict_child_sum := dict_child_sum self;
     dict_child_res := Some x; name := name self; axis_h := axis_h self;
     axis_d := axis_d self; axis_w := axis_w self; pos_h := pos_h self;
     pos_d := pos_d self; pos_w := pos_w self; d0_cen := d0_cen self;
     w0_cen := w0_cen self; h0_cen := h0_cen self; pos := pos self;
     pos_o := pos_o self; pos_o_adjust := pos_o_adjust self;
     shp := shp self |}.

Definition with_name (x : pyname) (self : Obj3D) : Obj3D :=
  {| d_o := d_o self; w_o := w_o self; h_o := h_o self;
     dict_child := dict_child self; dict_child_sum := dict_child_sum self;
     dict_child_res := dict_child_res self; name := Some x;
     axis_h := axis_h self; axis_d := axis_d self; axis_w := axis_w self;
     pos_h := pos_h self; pos_d := pos_d self; pos_w := pos_w self;
     d0_cen := d0_cen self; w0_cen := w0_cen self; h0_cen := h0_cen self;
     pos := pos self; pos_o := pos_o self; pos_o_adjust := pos_o_adjust self;
     shp := shp self |}.

Definition with_axis_h (x : V) (self : Obj3D) : Obj3D :=
  {| d_o := d_o self; w_o := w_o self; h_o := h_o self;
     dict_child := dict_child self; dict_child_sum := dict_child_sum self;
     dict_child_res := dict_child_res self; name := name self;
     axis_h := Some x; axis_d := axis_d self; axis_w := axis_w self;
     pos_h := pos_h self; pos_d := pos_d self; pos_w := pos_w self;
     d0_cen := d0_cen self; w0_cen := w0_cen self; h0_cen := h0_cen self;
     pos := pos self; pos_o := pos_o self; pos_o_adjust := pos_o_adjust self;
     shp := shp self |}.

Definition with_axis_d (x : V) (self : Obj3D) : Obj3D :=
  {| d_o := d_o self; w_o := w_o self; h_o := h_o self;
     dict_child := dict_child self; dict_child_sum := dict_child_sum self;
     dict_child_res := dict_child_res self; name := name self;
     axis_h := axis_h self; axis_d := Some x; axis_w := axis_w self;
     pos_h := pos_h self; pos_d := pos_d self; pos_w := pos_w self;
     d0_cen := d0_cen self; w0_cen := w0_cen self; h0_cen := h0_cen self;
     pos := pos self; pos_o := pos_o self; pos_o_adjust := pos_o_adjust self;
     shp := shp self |}.

Definition with_axis_w (x : V) (self : Obj3D) : Obj3D :=
  {| d_o := d_o self; w_o := w_o self; h_o := h_o self;
     dict_child := dict_child self; dict_child_sum := dict_child_sum self;
     dict_child_res := dict_child_res self; name := name self;
     axis_h := axis_h self; axis_d := axis_d self; axis_w := Some x;
     pos_h := pos_h self; pos_d := pos_d self; pos_w := pos_w self;
     d0_cen := d0_cen self; w0_cen := w0_cen self; h0_cen := h0_cen self;
     pos := pos self; pos_o := pos_o self; pos_o_adjust := pos_o_adjust self;
     shp := shp self |}.

Definition with_pos_h (x : Z) (self : Obj3D) : Obj3D :=
  {| d_o := d_o self; w_o := w_o self; h_o := h_o self;
     dict_child := dict_child self; dict_child_sum := dict_child_sum self;
     dict_child_res := dict_child_res self; name := name self;
     axis_h := axis_h self; axis_d := axis_d self; axis_w := axis_w self;
     pos_h := Some x; pos_d := pos_d self; pos_w := pos_w self;
     d0_cen := d0_cen self; w0_cen := w0_cen self; h0_cen := h0_cen self;
     pos := pos self; pos_o := pos_o self; pos_o_adjust := pos_o_adjust self;
     shp := shp self |}.

Definition with_pos_d (x : Z) (self : Obj3D) : Obj3D :=
  {| d_o := d_o self; w_o := w_o self; h_o := h_o self;
     dict_child := dict_child self; dict_child_sum := dict_child_sum self;
     dict_child_res := dict_child_res self; name := name self;
     axis_h := axis_h self; axis_d := axis_d self; axis_w := axis_w self;
     pos_h := pos_h self; pos_d := Some x; pos_w := pos_w self;
     d0_cen := d0_cen self; w0_cen := w0_cen self; h0_cen := h0_cen self;
     pos := pos self; pos_o := pos_o self; pos_o_adjust := pos_o_adjust self;
     shp := shp self |}.

Definition with_pos_w (x : Z) (self : Obj3D) : Obj3D :=
  {| d_o := d_o self; w_o := w_o self; h_o := h_o self;
     dict_child := dict_child self; dict_child_sum := dict_child_sum self;
     dict_child_res := dict_child_res self; name := name self;
     axis_h := axis_h self; axis_d := axis_d self; axis_w := axis_w self;
     pos_h := pos_h self; pos_d := pos_d self; pos_w := Some x;
     d0_cen := d0_cen self; w0_cen := w0_cen self; h0_cen := h0_cen self;
     pos := pos self; pos_o := pos_o self; pos_o_adjust := pos_o_adjust self;
     shp := shp self |}.

Definition with_pos_o (x : V) (self : Obj3D) : Obj3D :=
  {| d_o := d_o self; w_o := w_o self; h_o := h_o self;
     dict_child := dict_child self; dict_child_sum := dict_child_sum self;
     dict_child_res := dict_child_res self; name := name self;
     axis_h := axis_h self; axis_d := axis_d self; axis_w := axis_w self;
     pos_h := pos_h self; pos_d := pos_d self; pos_w := pos_w self;
     d0_cen := d0_cen self; w0_cen := w0_cen self; h0_cen := h0_cen self;
     pos := pos self; pos_o := Some x; pos_o_adjust := pos_o_adjust self;
     shp := shp self |}.

Definition with_pos_o_adjust (x : V) (self : Obj3D) : Obj3D :=
  {| d_o := d_o self; w_o := w_o self; h_o := h_o self;
     dict_child := dict_child self; dict_child_sum := dict_child_sum self;
     dict_child_res := dict_child_res self; name := name self;
     axis_h := axis_h self; axis_d := axis_d self; axis_w := axis_w self;
     pos_h := pos_h self; pos_d := pos_d self; pos_w := pos_w self;
     d0_cen := d0_cen self; w0_cen := w0_cen self; h0_cen := h0_cen self;
     pos := pos self; pos_o := pos_o self; pos_o_adjust := Some x;
     shp := shp self |}.

Definition with_shp (x : Shape) (self : Obj3D) : Obj3D :=
  {| d_o := d_o self; w_o := w_o self; h_o := h_o self;
     dict_child := dict_child self; dict_child_sum := dict_child_sum self;
     dict_child_res := dict_child_res self; name := name self;
     axis_h := axis_h self; axis_d := axis_d self; axis_w := axis_w self;
     pos_h := pos_h self; pos_d := pos_d self; pos_w := pos_w self;
     d0_cen := d0_cen self; w0_cen := w0_cen self; h0_cen := h0_cen self;
     pos := pos self; pos_o := pos_o self; pos_o_adjust := pos_o_adjust self;
     shp := Some x |}.
(** ** The methods of [Obj3D] *)

(** [Obj3D.__init__(self, axis_d, axis_w, axis_h, name)].  [self] is the
    instance as the caller hands it over (the subclasses assign [shp]
    before calling); an argument left out is [None].  The attribute [doc],
    the ambient FreeCAD document, plays no part in what follows and is
    left out. *)
Definition __init__ (self : Obj3D)
    (axis_d axis_w axis_h : option V) (name : pyname) : M Obj3D :=
  ld <- new_dict ;;
  let self := with_d_o ld self in
  lw <- new_dict ;;
  let self := with_w_o lw self in
  lh <- new_dict ;;
  let self := with_h_o lh self in
  let self := with_dict_child [] self in
  let self := with_dict_child_sum [] self in
  let self := with_dict_child_res [] self in
  let self := with_name name self in
  self <- match axis_h with
          | Some a => ret (with_axis_h (scaleTo a 1) self)
          | None =>
              m <- getattr "h_o" (h_o self) ;;
              setitem m 0 V0 ;;;
              ret (with_axis_h V0 (with_pos_h 0 self))
          end ;;
  self <- match axis_d with
          | Some a => ret (with_axis_d (scaleTo a 1) self)
          | None =>
              m <- getattr "d_o" (d_o self) ;;
              setitem m 0 V0 ;;;
              ret (with_axis_d V0 (with_pos_d 0 self))
          end ;;
  self <- match axis_w with
          | Some a => ret (with_axis_w (scaleTo a 1) self)
          | None =>
              m <- getattr "w_o" (w_o self) ;;
              setitem m 0 V0 ;;;
              ret (with_axis_w V0 (with_pos_w 0 self))
          end ;;
  ret (with_pos_o_adjust V0 self).

(** [get_o_to_d], [get_o_to_w], [get_o_to_h]: the vector from the origin
    to an index along one axis.  A function that runs off its end returns
    Python's [None]. *)
Definition get_o_to_d (self : Obj3D) (pos_d : Z) : M (option V) :=
  let abs_pos_d := Z.abs pos_d in
  cen <- getattr "d0_cen" (d0_cen self) ;;
  if cen =? 1 then
    if pos_d <=? 0 then
      try_except_KeyError
        (m <- getattr "d_o" (d_o self) ;; getitem m abs_pos_d)
        (logger_error ("pos_d key not defined " +:+ pretty pos_d) ;;;
         ret None)
        (fun vec => ret (Some vec))
    else
      try_except_KeyError
        (m0 <- getattr "d_o" (d_o self) ;;
         b <- getitem m0 0 ;;
         m1 <- getattr "d_o" (d_o self) ;;
         c <- getitem m1 pos_d ;;
         ret (vec_sub b c))                                  (* D = B-C *)
        (logger_error ("pos_d key not defined " +:+ pretty pos_d) ;;;
         ret None)
        (fun vec_0_to_d =>
           m0 <- getattr "d_o" (d_o self) ;;
           b <- getitem m0 0 ;;
           let vec_orig_to_d := vec_add b vec_0_to_d in      (* A = B + D *)
           ret (Some vec_orig_to_d))
  else
    try_except_KeyError
      (m <- getattr "d_o" (d_o self) ;; getitem m pos_d)
      (logger_error ("pos_d key not defined" +:+ pretty pos_d) ;;;
       ret None)
      (fun vec => ret (Some vec)).

Definition get_o_to_w (self : Obj3D) (pos_w : Z) : M (option V) :=
  let abs_pos_w := Z.abs pos_w in
  cen <- getattr "w0_cen" (w0_cen self) ;;
  if cen =? 1 then
    if pos_w <=? 0 then
      try_except_KeyError
        (m <- getattr "w_o" (w_o self) ;; getitem m abs_pos_w)
        (logger_error ("pos_w key not defined " +:+ pretty pos_w) ;;;
         ret None)
        (fun vec => ret (Some vec))
    else
      try_except_KeyError
        (m0 <- getattr "w_o" (w_o self) ;;
         b <- getitem m0 0 ;;
         m1 <- getattr "w_o" (w_o self) ;;
         c <- getitem m1 pos_w ;;
         ret (vec_sub b c))                                  (* D = B-C *)
        (logger_error ("pos_w key not defined " +:+ pretty pos_w) ;;;
         ret None)
        (fun vec_0_to_w =>
           m0 <- getattr "w_o" (w_o self) ;;
           b <- getitem m0 0 ;;
           let vec_orig_to_w := vec_add b vec_0_to_w in      (* A = B + D *)
           ret (Some vec_orig_to_w))
  else
    try_except_KeyError
      (m <- getattr "w_o" (w_o self) ;; getitem m pos_w)
      (logger_error ("pos_w key not defined" +:+ pretty pos_w) ;;;
       ret None)
      (fun vec => ret (Some vec)).

Definition get_o_to_h (self : Obj3D) (pos_h : Z) : M (option V) :=
  let abs_pos_h := Z.abs pos_h in
  cen <- getattr "h0_cen" (h0_cen self) ;;
  if cen =? 1 then
    if pos_h <=? 0 then
      try_except_KeyError
        (m <- getattr "h_o" (h_o self) ;; getitem m abs_pos_h)
        (logger_error ("pos_h key not defined " +:+ pretty pos_h) ;;;
         ret None)
        (fun vec => ret (Some vec))
    else
      try_except_KeyError
        (m0 <- getattr "h_o" (h_o self) ;;
         b <- getitem m0 0 ;;
         m1 <- getattr "h_o" (h_o self) ;;
         c <- getitem m1 pos_h ;;
         ret (vec_sub b c))                                  (* D = B-C *)
        (logger_error ("pos_h key not defined " +:+ pretty pos_h) ;;;
         ret None)
        (fun vec_0_to_h =>
           m0 <- getattr "h_o" (h_o self) ;;
           b <- getitem m0 0 ;;
           let vec_orig_to_h := vec_add b vec_0_to_h in      (* A = B + D *)
           ret (Some vec_orig_to_h))
  else
    try_except_KeyError
      (m <- getattr "h_o" (h_o self) ;; getitem m pos_h)
      (logger_error ("pos_h key not defined" +:+ pretty pos_h) ;;;
       ret None)
      (fun vec => ret (Some vec)).

(** [set_pos_o(self, adjust)]. *)
Definition set_pos_o (self : Obj3D) (adjust : Z) : M Obj3D :=
  pd <- getattr "pos_d" (pos_d self) ;;
  od <- get_o_to_d self pd ;;
  pw <- getattr "pos_w" (pos_w self) ;;
  ow <- get_o_to_w self pw ;;
  odw <- py_add od ow ;;
  ph <- getattr "pos_h" (pos_h self) ;;
  oh <- get_o_to_h self ph ;;
  vec_from_pos_o <- py_add (Some odw) oh ;;
  let vec_to_pos_o := vec_negative vec_from_pos_o in
  p <- getattr "pos" (pos self) ;;
  let self := with_pos_o (vec_add p vec_to_pos_o) self in
  if adjust =? 1 then ret (with_pos_o_adjust vec_to_pos_o self)
  else ret self.

(** [dict(child_d_o = child.d_o, child_w_o = child.w_o,
          child_h_o = child.h_o, child_shp = child.shp)] *)
Definition child_record (child : Obj3D) : M (ChildRecord Shape) :=
  cd <- getattr "d_o" (d_o child) ;;
  cw <- getattr "w_o" (w_o child) ;;
  ch <- getattr "h_o" (h_o child) ;;
  cs <- getattr "shp" (shp child) ;;
  ret (mkChildRecord cd cw ch cs).

(** [add_child(self, child, child_sum, child_name)]. *)
Definition add_child (self child : Obj3D)
    (child_sum : Z) (child_name : pyname) : M Obj3D :=
  r <- child_record child ;;
  dc <- getattr "dict_child" (dict_child self) ;;
  let self := with_dict_child (dict_setitem child_name r dc) self in
  if child_sum =? 1 then
    r <- child_record child ;;
    ds <- getattr "dict_child_sum" (dict_child_sum self) ;;
    ret (with_dict_child_sum (dict_setitem child_name r ds) self)
  else
    r <- child_record child ;;
    dr <- getattr "dict_child_res" (dict_child_res self) ;;
    ret (with_dict_child_res (dict_setitem child_name r dr) self).

(** [get_child(self)]. *)
Definition get_child (self : Obj3D) : M (pydict (ChildRecord Shape)) :=
  getattr "dict_child" (dict_child self).

(** [for key in table: lst.append(self.dict_child[key]['child_shp'])] *)
Fixpoint append_child_shp (self : Obj3D) (keys : list pyname)
    (lst : list Shape) : M (list Shape) :=
  match keys with
  | [] => ret lst
  | key :: keys' =>
      dc <- getattr "dict_child" (dict_child self) ;;
      match dict_get key dc with
      | Some r => append_child_shp self keys' (lst ++ [child_shp r])
      | None => raise KeyError
      end
  end.

(** What [make_parent] hands back: [self], or [None] when it runs off its
    end. *)
Inductive returned : Type := ReturnedSelf | ReturnedNone.

(** [make_parent(self, name)]. *)
Definition make_parent (self : Obj3D) (name : pyname)
    : M (Obj3D * returned) :=
  dc <- getattr "dict_child" (dict_child self) ;;
  if (length dc =? 0)%nat then ret (self, ReturnedNone)
  else
    ds <- getattr "dict_child_sum" (dict_child_sum self) ;;
    empty_res <-
      (if (length ds =? 0)%nat then
         dr <- getattr "dict_child_res" (dict_child_res self) ;;
         ret (length dr =? 0)%nat
       else ret false) ;;
    if (empty_res : bool) then ret (self, ReturnedNone)
    else
      ds <- getattr "dict_child_sum" (dict_child_sum self) ;;
      shp_sum_list <- append_child_shp self (dict_keys ds) [] ;;
      dr <- getattr "dict_child_res" (dict_child_res self) ;;
      shp_res_list <- append_child_shp self (dict_keys dr) [] ;;
      let shp_sum := fuseshplist shp_sum_list in
      let shp_res := fuseshplist shp_res_list in
      ret (with_shp (cut shp_sum shp_res) self, ReturnedSelf).

(** ** The resolvers, by axis *)

Inductive Axis : Type := Depth | Width | Height.

(** The spec's [resolveOffset(axis, index)]: one of the three resolvers. *)
Definition resolveOffset (ax : Axis) (self : Obj3D) (index : Z)
    : M (option V) :=
  match ax with
  | Depth => get_o_to_d self index
  | Width => get_o_to_w self index
  | Height => get_o_to_h self index
  end.

(** The attribute holding the axis's symmetry flag. *)
Definition SymmetryFlag (ax : Axis) (self : Obj3D) : option Z :=
  match ax with
  | Depth => d0_cen self
  | Width => w0_cen self
  | Height => h0_cen self
  end.

(** The attribute holding the axis's index map. *)
Definition IndexMapRef (ax : Axis) (self : Obj3D) : option loc :=
  match ax with
  | Depth => d_o self
  | Width => w_o self
  | Height => h_o self
  end.

Definition axis_letter (ax : Axis) : string :=
  match ax with Depth => "d" | Width => "w" | Height => "h" end.

(** The line a resolver logs when a key is missing; the message of the
    uncentred branch has no blank before the index. *)
Definition key_message (ax : Axis) (cen index : Z) : string :=
  "pos_" +:+ axis_letter ax +:+
  (if cen =? 1 then " key not defined " else " key not defined") +:+
  pretty index.

(** The keys one resolution reads from the index map. *)
Definition keys_read (cen index : Z) : list Z :=
  if cen =? 1 then
    if index <=? 0 then [Z.abs index] else [0; index]
  else [index].

(** The vector one resolution computes from an index map, when every key
    it reads is there. *)
Definition offset_of (cen : Z) (m : gmap Z V) (index : Z) : option V :=
  if cen =? 1 then
    if index <=? 0 then m !! Z.abs index
    else match m !! 0, m !! index with
         | Some b, Some c => Some (vec_add b (vec_sub b c))
         | _, _ => None
         end
  else m !! index.

Definition logged (msg : string) (s : store) : store :=
  {| heap := heap s; next := next s; log := log s ++ [msg] |}.

(** The axis [__init__] stores for an argument: the argument scaled to
    length 1, or [V0] when it was left out. *)
Definition stored_axis (axis : option V) : V :=
  match axis with Some a => scaleTo a 1 | None => V0 end.

(** The index map [__init__] leaves behind for an axis: empty, or with
    [V0] under 0 when the axis was left out. *)
Definition initial_map (axis : option V) : gmap Z V :=
  match axis with Some _ => ∅ | None => <[0 := V0]> ∅ end.

(** ** Registration, observed *)

(** The parent [add_child] leaves behind, given the record it built and
    the three tables it found. *)
Definition registered (self : Obj3D) (r : ChildRecord Shape)
    (child_sum : Z) (child_name : pyname)
    (dc ds dr : pydict (ChildRecord Shape)) : Obj3D :=
  let self := with_dict_child (dict_setitem child_name r dc) self in
  if child_sum =? 1
  then with_dict_child_sum (dict_setitem child_name r ds) self
  else with_dict_child_res (dict_setitem child_name r dr) self.

(** Every record of the table [d] has the shape the full table [dc] holds
    under the same name. *)
Definition agrees (dc d : pydict (ChildRecord Shape)) : Prop :=
  Forall (fun entry => child_shp <$> dict_get entry.1 dc
                       = Some (child_shp entry.2)) d.

(** A run of [add_child] calls on one parent, in order. *)
Fixpoint add_children (self : Obj3D) (calls : list (Obj3D * Z * pyname))
    : M Obj3D :=
  match calls with
  | [] => ret self
  | (child, child_sum, child_name) :: calls' =>
      self <- add_child self child child_sum child_name ;;
      add_children self calls'
  end.

(** A child [add_child] can read: it has its three index maps and a
    shape. *)
Definition registrable (child : Obj3D) : Prop :=
  is_Some (d_o child) /\ is_Some (w_o child) /\
  is_Some (h_o child) /\ is_Some (shp child).

#[global] Instance registrable_dec child : Decision (registrable child).
Proof. unfold registrable. apply _. Defined.

Definition key_set {A} (d : pydict A) : gset pyname :=
  list_to_set (dict_keys d).

(** The names of the full child table are those of the two sub-tables
    together. *)
Definition tables_cover (self : Obj3D) : Prop :=
  match dict_child self, dict_child_sum self, dict_child_res self with
  | Some dc, Some ds, Some dr => key_set dc = key_set ds ∪ key_set dr
  | _, _, _ => False
  end.

#[global] Instance tables_cover_dec self : Decision (tables_cover self).
Proof.
  unfold tables_cover.
  destruct (dict_child self), (dict_child_sum self), (dict_child_res self);
    apply _.
Defined.

(** What a registration record shows to who reads it in a given store:
    the contents of the three index maps it refers to, and the shape. *)
Record RecordView : Type := mkRecordView {
  view_d_o : gmap Z V;
  view_w_o : gmap Z V;
  view_h_o : gmap Z V;
  view_shp : Shape
}.

Definition read_record (r : ChildRecord Shape) : M RecordView :=
  fun s => (Return {| view_d_o := deref s (child_d_o r);
                      view_w_o := deref s (child_w_o r);
                      view_h_o := deref s (child_h_o r);
                      view_shp := child_shp r |}, s).

(** [self.dict_child[child_name]] *)
Definition get_record (self : Obj3D) (child_name : pyname)
    : M (ChildRecord Shape) :=
  dc <- getattr "dict_child" (dict_child self) ;;
  match dict_get child_name dc with
  | Some r => ret r
  | None => raise KeyError
  end.

(** The shapes a table holds under a list of names. *)
Definition shapes_under (dc : pydict (ChildRecord Shape))
    (keys : list pyname) : list Shape :=
  omap (fun key => child_shp <$> dict_get key dc) keys.

(** The shapes of a table's own records. *)
Definition shapes_of (d : pydict (ChildRecord Shape)) : list Shape :=
  child_shp <$> dict_values d.

(** ** The remaining position methods *)

(** [get_d_ab], [get_w_ab], [get_h_ab]:
    [self.get_o_to_d(ptb).sub(self.get_o_to_d(pta))].  Python resolves
    [ptb], looks the method [sub] up on what came back (on [None] that is
    an [AttributeError]), only then resolves [pta], and calls; [sub]
    refuses [None] with a [TypeError]. *)
Definition get_d_ab (self : Obj3D) (pta ptb : Z) : M V :=
  ob <- get_o_to_d self ptb ;;
  b <- getattr "sub" ob ;;
  oa <- get_o_to_d self pta ;;
  match oa with
  | Some a => ret (vec_sub b a)
  | None => raise TypeError
  end.

Definition get_w_ab (self : Obj3D) (pta ptb : Z) : M V :=
  ob <- get_o_to_w self ptb ;;
  b <- getattr "sub" ob ;;
  oa <- get_o_to_w self pta ;;
  match oa with
  | Some a => ret (vec_sub b a)
  | None => raise TypeError
  end.

Definition get_h_ab (self : Obj3D) (pta ptb : Z) : M V :=
  ob <- get_o_to_h self ptb ;;
  b <- getattr "sub" ob ;;
  oa <- get_o_to_h self pta ;;
  match oa with
  | Some a => ret (vec_sub b a)
  | None => raise TypeError
  end.

(** [get_pos_d], [get_pos_w], [get_pos_h]:
    [self.pos_o + self.get_o_to_d(pos_d)]. *)
Definition get_pos_d (self : Obj3D) (pos_d : Z) : M V :=
  o <- getattr "pos_o" (pos_o self) ;;
  v <- get_o_to_d self pos_d ;;
  py_add (Some o) v.

Definition get_pos_w (self : Obj3D) (pos_w : Z) : M V :=
  o <- getattr "pos_o" (pos_o self) ;;
  v <- get_o_to_w self pos_w ;;
  py_add (Some o) v.

Definition get_pos_h (self : Obj3D) (pos_h : Z) : M V :=
  o <- getattr "pos_o" (pos_o self) ;;
  v <- get_o_to_h self pos_h ;;
  py_add (Some o) v.

(** [get_pos_dwh(self, pos_d, pos_w, pos_h)]. *)
Definition get_pos_dwh (self : Obj3D) (pos_d pos_w pos_h : Z) : M V :=
  o <- getattr "pos_o" (pos_o self) ;;
  vd <- get_o_to_d self pos_d ;;
  od <- py_add (Some o) vd ;;
  vw <- get_o_to_w self pos_w ;;
  odw <- py_add (Some od) vw ;;
  vh <- get_o_to_h self pos_h ;;
  py_add (Some odw) vh.

(** Python's truth value of a name: [None] and [''] are false. *)
Definition truthy (x : pyname) : bool :=
  match x with
  | Some str => negb (String.eqb str "")
  | None => false
  end.

(** [set_name(self, name, default_name, change)].  It reads and assigns
    the attribute [name] only; nothing in it can raise. *)
Definition set_name (self : Obj3D) (new_name default_name : pyname)
    (change : Z) : Obj3D :=
  if match name self with
     | None => true                          (* not hasattr(self, 'name') *)
     | Some current => negb (truthy current) || (change =? 1)
     end
  then
    if negb (truthy new_name) then with_name default_name self
    else with_name new_name self
  else self.

(** The spec's [displacementBetween(axis, indexA, indexB)]. *)
Definition displacementBetween (ax : Axis) (self : Obj3D) (pta ptb : Z)
    : M V :=
  match ax with
  | Depth => get_d_ab self pta ptb
  | Width => get_w_ab self pta ptb
  | Height => get_h_ab self pta ptb
  end.

(** The absolute position of an index along one axis. *)
Definition positionAlong (ax : Axis) (self : Obj3D) (index : Z) : M V :=
  match ax with
  | Depth => get_pos_d self index
  | Width => get_pos_w self index
  | Height => get_pos_h self index
  end.

(** The record [add_child] would build of a child, when it can. *)
Definition record_of (child : Obj3D) : option (ChildRecord Shape) :=
  match d_o child, w_o child, h_o child, shp child with
  | Some cd, Some cw, Some ch, Some cs => Some (mkChildRecord cd cw ch cs)
  | _, _, _, _ => None
  end.

Definition call_name (call : Obj3D * Z * pyname) : pyname := call.2.

(** The shapes of the children a run of calls registers as additive
    ([child_sum = 1]), and of those it registers as subtractive (any other
    [child_sum]), in the order of the calls. *)
Definition additive_shapes (calls : list (Obj3D * Z * pyname))
    : list Shape :=
  omap (fun call => if call.1.2 =? 1 then shp call.1.1 else None) calls.

Definition subtractive_shapes (calls : list (Obj3D * Z * pyname))
    : list Shape :=
  omap (fun call => if call.1.2 =? 1 then None else shp call.1.1) calls.

(** Two stores with the same heap and the same allocation counter: they
    differ in the log at most. *)
Definition same_heap (s s' : store) : Prop :=
  heap s' = heap s /\ next s' = next s.

(** The anchor index [__init__] leaves for an axis: 0 when the axis was
    left out, otherwise whatever the instance had. *)
Definition anchor_after (axis : option V) (before : option Z) : option Z :=
  match axis with Some _ => before | None => Some 0 end.

(** The entries a run of calls appends to the full child table, and, for
    [additive] true or false, to the additive or the subtractive
    sub-table. *)
Definition call_entries (calls : list (Obj3D * Z * pyname))
    : pydict (ChildRecord Shape) :=
  omap (fun call => pair (call_name call) <$> record_of call.1.1) calls.

Definition tagged_entries (additive : bool)
    (calls : list (Obj3D * Z * pyname)) : pydict (ChildRecord Shape) :=
  omap (fun call =>
          if Bool.eqb (call.1.2 =? 1) additive
          then pair (call_name call) <$> record_of call.1.1
          else None) calls.

End Obj3D.

Notation "x <- m ;; k" := (bind m (fun x => k))
  (at level 100, m at next level, right associativity).
Notation "m ;;; k" := (bind m (fun _ => k))
  (at level 100, right associativity).

(** ** Sample frames *)

(** A frame whose depth axis is centred and whose width and height axes
    are not; each index map defines the keys 0, 1 and 2. *)
Definition sample_frame : Obj3D (V := Zvec) (Shape := solid) :=
  {| d_o := Some 1%positive; w_o := Some 2%positive; h_o := Some 3%positive;
     dict_child := Some []; dict_child_sum := Some [];
     dict_child_res := Some []; name := Some (Some "sample");
     axis_h := Some (mkZvec 0 0 1); axis_d := Some (mkZvec 1 0 0);
     axis_w := Some (mkZvec 0 1 0);
     pos_h := Some 0; pos_d := Some 1; pos_w := Some 2;
     d0_cen := Some 1; w0_cen := Some 0; h0_cen := Some 0;
     pos := Some (mkZvec 10 20 30); pos_o := None;
     pos_o_adjust := Some (mkZvec 0 0 0); shp := None |}.

Definition sample_d_o : gmap Z Zvec :=
  <[0 := mkZvec 5 0 0]> (<[1 := mkZvec 2 0 0]> (<[2 := mkZvec 0 0 0]> ∅)).

Definition sample_w_o : gmap Z Zvec :=
  <[0 := mkZvec 0 0 0]> (<[1 := mkZvec 0 4 0]> (<[2 := mkZvec 0 8 0]> ∅)).

Definition sample_h_o : gmap Z Zvec :=
  <[0 := mkZvec 0 0 0]> (<[1 := mkZvec 0 0 1]> (<[2 := mkZvec 0 0 2]> ∅)).

Definition sample_store : store (V := Zvec) :=
  {| heap := <[1%positive := sample_d_o]>
               (<[2%positive := sample_w_o]>
                  (<[3%positive := sample_h_o]> ∅));
     next := 4%positive;
     log := [] |}.

(** The store before anything is built. *)
Definition empty_store : store (V := Zvec) :=
  {| heap := ∅; next := 1%positive; log := [] |}.

(** What [__init__] makes of a blank instance when it is given a
    zero-length depth axis next to the width axis (0,1,0) and the height
    axis (0,0,1). *)
Definition zero_axis_frame : Obj3D (V := Zvec) (Shape := solid) :=
  {| d_o := Some 1%positive; w_o := Some 2%positive; h_o := Some 3%positive;
     dict_child := Some []; dict_child_sum := Some [];
     dict_child_res := Some []; name := Some (Some "frame");
     axis_h := Some (mkZvec 0 0 1); axis_d := Some (mkZvec 0 0 0);
     axis_w := Some (mkZvec 0 1 0);
     pos_h := None; pos_d := None; pos_w := None;
     d0_cen := None; w0_cen := None; h0_cen := None;
     pos := None; pos_o := None;
     pos_o_adjust := Some (mkZvec 0 0 0); shp := None |}.

Definition zero_axis_store : store (V := Zvec) :=
  {| heap := <[3%positive := ∅]> (<[2%positive := ∅]> (<[1%positive := ∅]> ∅));
     next := 4%positive;
     log := [] |}.

(** Two leaf parts, a plate and a hole, with their index maps at addresses
    of their own, and the records [add_child] makes of them. *)
Definition leaf (ld lw lh : loc) (sh : solid)
    : Obj3D (V := Zvec) (Shape := solid) :=
  with_shp sh (with_h_o lh (with_w_o lw (with_d_o ld blank))).

Definition plate : Obj3D (V := Zvec) (Shape := solid) :=
  leaf 4%positive 5%positive 6%positive (Primitive 1).

Definition hole : Obj3D (V := Zvec) (Shape := solid) :=
  leaf 7%positive 8%positive 9%positive (Primitive 2).

Definition plate_record : ChildRecord solid :=
  mkChildRecord 4%positive 5%positive 6%positive (Primitive 1).

Definition hole_record : ChildRecord solid :=
  mkChildRecord 7%positive 8%positive 9%positive (Primitive 2).

(** A leaf part: no child, a shape of its own. *)
Definition leaf_frame : Obj3D (V := Zvec) (Shape := solid) :=
  with_shp (Primitive 7) sample_frame.

(** The sample frame after [add_child(plate, 1, 'placa')]. *)
Definition plate_parent : Obj3D (V := Zvec) (Shape := solid) :=
  with_dict_child_sum [(Some "placa", plate_record)]
    (with_dict_child [(Some "placa", plate_record)] sample_frame).

(** The sample frame after [add_child(plate, 1, 'placa')] and
    [add_child(hole, 0, 'hole')], as [placa_perforada] registers them. *)
Definition perforated_parent : Obj3D (V := Zvec) (Shape := solid) :=
  with_dict_child_res [(Some "hole", hole_record)]
    (with_dict_child
       [(Some "placa", plate_record); (Some "hole", hole_record)]
       plate_parent).

(** A child is registered, then an entry is written into its depth map;
    the parent's record is read before and after the write. *)
Definition write_after_registration : M (RecordView * RecordView) :=
  child <- __init__ (with_shp (Primitive 1) blank)
             None None None (Some "child") ;;
  parent <- __init__ blank None None None (Some "parent") ;;
  parent <- add_child parent child 1 (Some "child") ;;
  r <- get_record parent (Some "child") ;;
  before <- read_record r ;;
  m <- getattr "d_o" (d_o child) ;;
  setitem m 1 (mkZvec 5 0 0) ;;;                 (* child.d_o[1] = ... *)
  after <- read_record r ;;
  ret (before, after).

(** One name is registered as additive with one part and then as
    subtractive with another; the parent is synthesized. *)
Definition opposite_tag_registration
    : M (Obj3D (V := Zvec) (Shape := solid) * returned) :=
  part1 <- __init__ (with_shp (Primitive 1) blank)
             None None None (Some "plate") ;;
  part2 <- __init__ (with_shp (Primitive 2) blank)
             None None None (Some "hole") ;;
  parent <- __init__ blank None None None (Some "parent") ;;
  parent <- add_child parent part1 1 (Some "part") ;;
  parent <- add_child parent part2 0 (Some "part") ;;
  make_parent parent (Some "parent").

(** The registrations of [placa_perforada]: a plate added, a hole removed,
    then the parent synthesized. *)
Definition perforated_plate_build
    : M (Obj3D (V := Zvec) (Shape := solid) * returned) :=
  placa_ <- __init__ (with_shp (Primitive 1) blank)
              (Some (mkZvec 1 0 0)) (Some (mkZvec 0 1 0))
              (Some (mkZvec 0 0 1)) (Some "placa base") ;;
  hole_ <- __init__ (with_shp (Primitive 2) blank)
             (Some (mkZvec 1 0 0)) (Some (mkZvec 0 1 0))
             (Some (mkZvec 0 0 1)) None ;;
  parent <- __init__ blank
              (Some (mkZvec 1 0 0)) (Some (mkZvec 0 1 0))
              (Some (mkZvec 0 0 1)) (Some "placa perforada") ;;
  parent <- add_child parent placa_ 1 (Some "placa") ;;
  parent <- add_child parent hole_ 0 (Some "hole") ;;
  make_parent parent (Some "placa perforada").

(** A frame with double coordinates: the depth axis is centred, with
    (0.1, 0, 0) entered under index 0 and (0.7, 0, 0) under index 1; the
    width and height maps hold the zero vector under 0.  All three anchors
    are index 0 and the placement point is (10, 0, 0). *)
Definition double_frame : Obj3D (V := Fvec) (Shape := solid) :=
  {| d_o := Some 1%positive; w_o := Some 2%positive; h_o := Some 3%positive;
     dict_child := Some []; dict_child_sum := Some [];
     dict_child_res := Some []; name := Some (Some "doubles");
     axis_h := Some (Fvec_of_Z 0 0 1);
     axis_d := Some (Fvec_of_Z 1 0 0);
     axis_w := Some (Fvec_of_Z 0 1 0);
     pos_h := Some 0; pos_d := Some 0; pos_w := Some 0;
     d0_cen := Some 1; w0_cen := Some 0; h0_cen := Some 0;
     pos := Some (Fvec_of_Z 10 0 0); pos_o := None;
     pos_o_adjust := Some (Fvec_of_Z 0 0 0); shp := None |}.

Definition double_d_o : gmap Z Fvec :=
  <[0 := mkFvec (ratio 1 10) (float_of_Z 0) (float_of_Z 0)]>
    (<[1 := mkFvec (ratio 7 10) (float_of_Z 0) (float_of_Z 0)]> ∅).

Definition double_store : store (V := Fvec) :=
  {| heap :=
       <[1%positive := double_d_o]>
         (<[2%positive := <[0 := Fvec_of_Z 0 0 0]> ∅]>
            (<[3%positive := <[0 := Fvec_of_Z 0 0 0]> ∅]> ∅));
     next := 4%positive;
     log := [] |}.

(** * Properties *)

(** Unfolds the model's own definitions and nothing of the libraries. *)
Ltac run_model :=
  cbv beta iota zeta delta
    [__init__ bind ret raise getattr new_dict setitem getitem logger_error
     try_except_KeyError py_add
     with_d_o with_w_o with_h_o with_dict_child with_dict_child_sum
     with_dict_child_res with_name with_axis_h with_axis_d with_axis_w
     with_pos_h with_pos_d with_pos_w with_pos_o with_pos_o_adjust with_shp
     d_o w_o h_o dict_child dict_child_sum dict_child_res name
     axis_h axis_d axis_w pos_h pos_d pos_w
     d0_cen w0_cen h0_cen pos pos_o pos_o_adjust shp heap next log].

(** ** The model at work *)

(** Index 7 on the uncentred width axis: the message of that branch has no
    blank before the index. *)
Example width_index_7 :
  resolveOffset Width sample_frame 7 sample_store =
    (Return None, logged "pos_w key not defined7" sample_store).
Proof. vm_compute. reflexivity. Qed.

(** A frame whose symmetry flag was never assigned (no class in the file
    assigns one) cannot be resolved at all. *)
Example resolve_without_flag :
  resolveOffset Depth zero_axis_frame 0 zero_axis_store =
    (Raise (AttributeError "d0_cen"), zero_axis_store).
Proof. reflexivity. Qed.

(** A failed resolution in [set_pos_o] ends in a [TypeError], after the
    line is logged. *)
Example set_pos_o_bad_anchor :
  set_pos_o (with_pos_d 7 sample_frame) 0 sample_store =
    (Raise TypeError, logged "pos_d key not defined 7" sample_store).
Proof. vm_compute. reflexivity. Qed.

Example perforated_plate_shape :
  exists parent,
    fst (perforated_plate_build empty_store) = Return (parent, ReturnedSelf) /\
    shp parent = Some (Cut (Fuse [Primitive 1]) (Fuse [Primitive 2])) /\
    dict_keys <$> dict_child parent = Some [Some "placa"; Some "hole"].
Proof.
  eexists. split; [vm_compute; reflexivity |]. split; reflexivity.
Qed.

(** ** Position resolver *)

Section Resolver.
Context {V Shape : Type} `{Vector V} `{ShapeKernel Shape}.
Implicit Types (self : Obj3D (V := V) (Shape := Shape)) (s : store (V := V)).

(** What one resolution does, whatever the axis and the mode: with every
    key it reads present it hands back the vector and leaves the store
    alone; otherwise it logs one line and hands back [None]. *)
Lemma resolveOffset_run ax self index s cen l :
  SymmetryFlag ax self = Some cen ->
  IndexMapRef ax self = Some l ->
  resolveOffset ax self index s =
    match offset_of cen (deref s l) index with
    | Some v => (Return (Some v), s)
    | None => (Return None, logged (key_message ax cen index) s)
    end.
Proof.
  intros Hcen Hmap.
  destruct ax; simpl in Hcen, Hmap; simpl;
    unfold get_o_to_d, get_o_to_w, get_o_to_h, offset_of, key_message;
    rewrite Hcen, Hmap; unfold bind at 1; simpl;
    (destruct (cen =? 1); [destruct (index <=? 0) |]);
    unfold try_except_KeyError, bind, getitem, logger_error, ret, logged;
    simpl;
    repeat (match goal with
            | E : deref s l !! ?k = _ |- context [deref s l !! ?k] =>
                rewrite E
            | |- context [deref s l !! ?k] =>
                destruct (deref s l !! k) eqn:?
            end; simpl);
    reflexivity.
Qed.


(** C1.  On a centred axis (symmetry flag 1) an index [i <= 0] resolves to
    the entry of the index map under [|i|], and an index [i > 0], when the
    map has entries under 0 and under [i], resolves to
    [IndexMap[0] + (IndexMap[0] - IndexMap[i])]: the entry under [i]
    reflected around the centre entry.  The store is left as it was. *)
Theorem centred_resolution ax self s l :
  SymmetryFlag ax self = Some 1 ->
  IndexMapRef ax self = Some l ->
  (forall index v,
     index <= 0 ->
     deref s l !! Z.abs index = Some v ->
     resolveOffset ax self index s = (Return (Some v), s)) /\
  (forall index b c,
     0 < index ->
     deref s l !! 0 = Some b ->
     deref s l !! index = Some c ->
     resolveOffset ax self index s =
       (Return (Some (vec_add b (vec_sub b c))), s)).
Proof.
  intros Hcen Hmap. split.
  - intros index v Hle Hv.
    rewrite (resolveOffset_run ax self index s 1 l Hcen Hmap).
    unfold offset_of. change (1 =? 1) with true. cbv iota.
    destruct (Z.leb_spec index 0) as [_ | Hgt]; [| lia].
    by rewrite Hv.
  - intros index b c Hpos Hb Hc.
    rewrite (resolveOffset_run ax self index s 1 l Hcen Hmap).
    unfold offset_of. change (1 =? 1) with true. cbv iota.
    destruct (Z.leb_spec index 0) as [Hle | _]; [lia |].
    by rewrite Hb, Hc.
Qed.


Section Exact.
Context `{!VectorLaws V}.

Lemma vec_negative_add (a : V) : vec_add (vec_negative a) a = V0.
Proof. rewrite vec_add_comm. apply vec_add_negative. Qed.

Lemma vec_reflect_add (b c : V) :
  vec_add (vec_add b (vec_sub b c)) c = vec_add b b.
Proof.
  rewrite vec_sub_add, !vec_add_assoc, vec_negative_add.
  by rewrite vec_add_V0.
Qed.

(** C6, as amended.  In exact vector arithmetic ([VectorLaws]): on a
    centred axis, for an index [i >= 1] with entries under 0 and
    under [i], the resolutions of [i], [-i] and 0 all return a vector and
    [resolveOffset(i) + resolveOffset(-i) = 2 * resolveOffset(0)], twice a
    vector being the vector added to itself. *)
Theorem mirror_symmetry ax self s l index b c :
  SymmetryFlag ax self = Some 1 ->
  IndexMapRef ax self = Some l ->
  1 <= index ->
  deref s l !! 0 = Some b ->
  deref s l !! index = Some c ->
  exists r_pos r_neg r_0,
    resolveOffset ax self index s = (Return (Some r_pos), s) /\
    resolveOffset ax self (- index) s = (Return (Some r_neg), s) /\
    resolveOffset ax self 0 s = (Return (Some r_0), s) /\
    vec_add r_pos r_neg = vec_add r_0 r_0.
Proof.
  intros Hcen Hmap Hge Hb Hc.
  exists (vec_add b (vec_sub b c)), c, b.
  rewrite !(fun i => resolveOffset_run ax self i s 1 l Hcen Hmap).
  unfold offset_of. change (1 =? 1) with true. cbv iota.
  destruct (Z.leb_spec index 0) as [Hle | _]; [lia |].
  destruct (Z.leb_spec (- index) 0) as [_ | Hgt]; [| lia].
  change (0 <=? 0) with true. cbv iota.
  rewrite Z.abs_opp, (Z.abs_eq index) by lia.
  change (Z.abs 0) with 0.
  rewrite Hb, Hc. repeat split; try reflexivity.
  apply vec_reflect_add.
Qed.

End Exact.

End Resolver.

(** The integer grid obeys the laws of exact arithmetic. *)
#[global] Instance Zvec_VectorLaws : VectorLaws Zvec.
Proof.
  split; intros; destruct_all Zvec; cbn;
    unfold Zvec_add, Zvec_sub, Zvec_negative; cbn; f_equal; lia.
Qed.

Lemma centred_resolution_witness :
  resolveOffset Depth sample_frame (-1) sample_store =
    (Return (Some (mkZvec 2 0 0)), sample_store) /\
  resolveOffset Depth sample_frame 2 sample_store =
    (Return (Some (mkZvec 10 0 0)), sample_store).
Proof.
  destruct (centred_resolution Depth sample_frame sample_store 1%positive
              eq_refl eq_refl) as [Hneg Hpos].
  split.
  - apply (Hneg (-1) (mkZvec 2 0 0)); [lia | reflexivity].
  - apply (Hpos 2 (mkZvec 5 0 0) (mkZvec 0 0 0)); [lia | reflexivity ..].
Defined.

(** On a centred axis a negative index reads the key of its absolute
    value: -1 resolves to the vector stored under 1. *)
Example negative_index_reads_mirrored_key :
  deref sample_store 1%positive !! (-1) = None /\
  resolveOffset Depth sample_frame (-1) sample_store =
    (Return (Some (mkZvec 2 0 0)), sample_store).
Proof. repeat split. Qed.



Lemma mirror_symmetry_witness :
  exists r_pos r_neg r_0,
    resolveOffset Depth sample_frame 1 sample_store =
      (Return (Some r_pos), sample_store) /\
    resolveOffset Depth sample_frame (-1) sample_store =
      (Return (Some r_neg), sample_store) /\
    resolveOffset Depth sample_frame 0 sample_store =
      (Return (Some r_0), sample_store) /\
    vec_add r_pos r_neg = vec_add r_0 r_0.
Proof.
  apply (mirror_symmetry Depth sample_frame sample_store 1%positive 1
           (mkZvec 5 0 0) (mkZvec 2 0 0));
    [reflexivity | reflexivity | lia | reflexivity | reflexivity].
Defined.

(** C6 as stated does not hold on doubles: with (0.1, 0, 0) under index 0
    and (0.7, 0, 0) under index 1 of a centred axis, the resolutions of 1
    and -1 add up to a vector whose first coordinate is below that of
    twice the resolution of 0 (0.19999999999999996 against 0.2). *)
Lemma mirror_symmetry_fails_on_doubles :
  exists r_pos r_neg r_0,
    resolveOffset Depth double_frame 1 double_store
      = (Return (Some r_pos), double_store) /\
    resolveOffset Depth double_frame (-1) double_store
      = (Return (Some r_neg), double_store) /\
    resolveOffset Depth double_frame 0 double_store
      = (Return (Some r_0), double_store) /\
    r_neg = mkFvec (ratio 7 10) (float_of_Z 0) (float_of_Z 0) /\
    r_0 = mkFvec (ratio 1 10) (float_of_Z 0) (float_of_Z 0) /\
    PrimFloat.eqb (fx (vec_add r_pos r_neg)) (fx (vec_add r_0 r_0)) = false /\
    PrimFloat.ltb (fx (vec_add r_pos r_neg)) (fx (vec_add r_0 r_0)) = true /\
    vec_add r_pos r_neg <> vec_add r_0 r_0.
Proof.
  eexists _, _, _. split; [vm_compute; reflexivity |].
  split; [vm_compute; reflexivity |]. split; [vm_compute; reflexivity |].
  split; [vm_compute; reflexivity |]. split; [vm_compute; reflexivity |].
  split; [vm_compute; reflexivity |]. split; [vm_compute; reflexivity |].
  intros Heq. apply (f_equal (fun v => PrimFloat.eqb (fx v)
                       (PrimFloat.add (ratio 1 10) (ratio 1 10)))) in Heq.
  vm_compute in Heq. discriminate.
Qed.

(** ** Construction and origin *)

Section Frame.
Context {V Shape : Type} `{Vector V} `{ShapeKernel Shape}.
Implicit Types (self : Obj3D (V := V) (Shape := Shape)) (s : store (V := V)).

(** [__init__] always runs to its end. *)
Lemma init_run self ad aw ah nm s :
  exists self' s',
    __init__ self ad aw ah nm s = (Return self', s') /\
    d_o self' = Some (next s) /\
    w_o self' = Some (Pos.succ (next s)) /\
    h_o self' = Some (Pos.succ (Pos.succ (next s))) /\
    deref s' (next s) = initial_map ad /\
    deref s' (Pos.succ (next s)) = initial_map aw /\
    deref s' (Pos.succ (Pos.succ (next s))) = initial_map ah /\
    axis_d self' = Some (stored_axis ad) /\
    axis_w self' = Some (stored_axis aw) /\
    axis_h self' = Some (stored_axis ah) /\
    dict_child self' = Some [] /\
    dict_child_sum self' = Some [] /\
    dict_child_res self' = Some [] /\
    pos_o_adjust self' = Some V0 /\
    shp self' = shp self /\
    log s' = log s.
Proof.
  destruct s as [h n lg].
  assert (n <> Pos.succ n) by lia.
  assert (n <> Pos.succ (Pos.succ n)) by lia.
  assert (Pos.succ n <> Pos.succ (Pos.succ n)) by lia.
  destruct ad, aw, ah; do 2 eexists;
    (split; [run_model; reflexivity |]);
    unfold deref; run_model;
    repeat first [ rewrite lookup_total_insert_eq
                 | rewrite lookup_total_insert_ne by done ];
    repeat split.
Qed.

(** C8, as amended.  [Obj3D.__init__] rejects no axis and raises no
    error.  It first creates the three offset maps, at fresh addresses,
    and then stores for every axis it is given, whatever its length, the
    vector [DraftVecUtils.scaleTo(axis, 1)] returns; only an axis left out
    defaults, to [V0], with [V0] entered under index 0 of its map. *)
Theorem init_accepts_every_axis self ad aw ah nm s :
  exists self' s',
    __init__ self ad aw ah nm s = (Return self', s') /\
    d_o self' = Some (next s) /\
    w_o self' = Some (Pos.succ (next s)) /\
    h_o self' = Some (Pos.succ (Pos.succ (next s))) /\
    deref s' (next s) = initial_map ad /\
    deref s' (Pos.succ (next s)) = initial_map aw /\
    deref s' (Pos.succ (Pos.succ (next s))) = initial_map ah /\
    axis_d self' = Some (stored_axis ad) /\
    axis_w self' = Some (stored_axis aw) /\
    axis_h self' = Some (stored_axis ah).
Proof.
  destruct (init_run self ad aw ah nm s)
    as (self' & s' & Hrun & Hd & Hw & Hh & Hmd & Hmw & Hmh & Had & Haw & Hah & _).
  exists self', s'. repeat split; assumption.
Qed.

Section Exact.
Context `{!VectorLaws V}.

Lemma vec_add_sub_cancel (p n : V) :
  vec_sub (vec_add p (vec_negative n)) p = vec_negative n.
Proof.
  rewrite vec_sub_add, (vec_add_comm p), vec_add_assoc, vec_add_negative.
  apply vec_add_V0.
Qed.

End Exact.

(** C9, as amended.  [__init__] sets [pos_o_adjust] to [V0].  On a frame
    whose three anchor indices resolve, with [S] the sum of the three
    resolved offsets, [set_pos_o] sets [pos_o = pos + (-S)], which is
    [pos - S] as soon as [a.sub(b)] is [a + b.negative()]; it leaves
    [pos_o_adjust] as it was unless called with [adjust = 1], and then
    records [-S], the vector it added to [pos].  In exact arithmetic
    ([VectorLaws]) that is [pos_o - pos]. *)
Theorem set_pos_o_origin self s adjust p pd pw ph od ow oh :
  pos self = Some p ->
  pos_d self = Some pd ->
  pos_w self = Some pw ->
  pos_h self = Some ph ->
  resolveOffset Depth self pd s = (Return (Some od), s) ->
  resolveOffset Width self pw s = (Return (Some ow), s) ->
  resolveOffset Height self ph s = (Return (Some oh), s) ->
  (forall self0 ad aw ah nm s0,
     exists o s1,
       __init__ self0 ad aw ah nm s0 = (Return o, s1) /\
       pos_o_adjust o = Some V0) /\
  exists self' o,
    set_pos_o self adjust s = (Return self', s) /\
    o = vec_add p (vec_negative (vec_add (vec_add od ow) oh)) /\
    pos_o self' = Some o /\
    ((forall a b : V, vec_sub a b = vec_add a (vec_negative b)) ->
     o = vec_sub p (vec_add (vec_add od ow) oh)) /\
    (adjust <> 1 -> pos_o_adjust self' = pos_o_adjust self) /\
    (adjust = 1 ->
     pos_o_adjust self' =
       Some (vec_negative (vec_add (vec_add od ow) oh))) /\
    (adjust = 1 -> VectorLaws V ->
     pos_o_adjust self' = Some (vec_sub o p)).
Proof.
  intros Hp Hpd Hpw Hph Hd Hw Hh. split.
  { intros self0 ad aw ah nm s0.
    destruct (init_run self0 ad aw ah nm s0) as (o & s1 & Hrun & Hrest).
    exists o, s1. split; [exact Hrun |]. apply Hrest. }
  simpl in Hd, Hw, Hh.
  set (sum := vec_add (vec_add od ow) oh).
  assert (Hrun : set_pos_o self adjust s =
            (Return (if adjust =? 1
                     then with_pos_o_adjust (vec_negative sum)
                            (with_pos_o (vec_add p (vec_negative sum)) self)
                     else with_pos_o (vec_add p (vec_negative sum)) self), s)).
  { unfold set_pos_o, bind, getattr.
    rewrite Hpd. unfold ret at 1. rewrite Hd.
    rewrite Hpw. unfold ret at 1. rewrite Hw.
    unfold py_add at 1. unfold ret at 1.
    rewrite Hph. unfold ret at 1. rewrite Hh.
    unfold py_add, ret. rewrite Hp.
    by destruct (adjust =? 1). }
  eexists _, (vec_add p (vec_negative sum)). split; [exact Hrun |].
  split; [reflexivity |].
  split; [by destruct (adjust =? 1) |].
  split; [intros Hsub; by rewrite Hsub |].
  destruct (Z.eqb_spec adjust 1) as [-> | Hne]; cbn.
  - split; [done |]. split; [done |].
    intros _ Hlaws. by rewrite vec_add_sub_cancel.
  - split; [done |]. split; done.
Qed.

End Frame.

(** C8 as stated does not hold: given a zero-length depth axis the
    construction is not rejected.  It returns the instance, with the three
    offset maps created and the zero-length vector stored as the axis. *)
Lemma zero_length_axis_accepted :
  __init__ blank (Some (mkZvec 0 0 0)) (Some (mkZvec 0 1 0))
           (Some (mkZvec 0 0 1)) (Some "frame") empty_store =
    (Return zero_axis_frame, zero_axis_store).
Proof. reflexivity. Qed.

Lemma set_pos_o_origin_witness :
  exists self',
    set_pos_o sample_frame 1 sample_store = (Return self', sample_store) /\
    pos_o self' = Some (mkZvec 2 12 30) /\
    mkZvec 2 12 30 = vec_sub (mkZvec 10 20 30) (mkZvec 8 8 0) /\
    pos_o_adjust self' = Some (mkZvec (-8) (-8) 0) /\
    pos_o_adjust self' = Some (vec_sub (mkZvec 2 12 30) (mkZvec 10 20 30)).
Proof.
  assert (Hd : resolveOffset Depth sample_frame 1 sample_store =
                 (Return (Some (mkZvec 8 0 0)), sample_store))
    by (vm_compute; reflexivity).
  assert (Hw : resolveOffset Width sample_frame 2 sample_store =
                 (Return (Some (mkZvec 0 8 0)), sample_store))
    by (vm_compute; reflexivity).
  assert (Hh : resolveOffset Height sample_frame 0 sample_store =
                 (Return (Some (mkZvec 0 0 0)), sample_store))
    by (vm_compute; reflexivity).
  destruct (set_pos_o_origin sample_frame sample_store 1
              (mkZvec 10 20 30) 1 2 0
              (mkZvec 8 0 0) (mkZvec 0 8 0) (mkZvec 0 0 0)
              eq_refl eq_refl eq_refl eq_refl Hd Hw Hh)
    as [_ (self' & o & Hrun & Ho & Hpos_o & Hminus & _ & Hadjust & Hexact)].
  exists self'. subst o. split; [exact Hrun |].
  split; [exact Hpos_o |].
  split; [exact (Hminus vec_sub_add) |].
  split; [exact (Hadjust eq_refl) | exact (Hexact eq_refl Zvec_VectorLaws)].
Defined.

(** C9 as stated does not hold on doubles: with the placement point
    (10, 0, 0) and the depth anchor at 0.1, [set_pos_o] called with
    [adjust = 1] records -0.1 as the adjustment, and that is not
    [pos_o - pos], which comes out as 9.9 - 10.  The first clause holds
    there: [pos_o] is [pos] minus the sum. *)
Lemma adjustment_is_not_pos_o_minus_pos :
  exists self' o adj,
    set_pos_o double_frame 1 double_store = (Return self', double_store) /\
    pos_o self' = Some o /\
    pos_o_adjust self' = Some adj /\
    o = vec_sub (Fvec_of_Z 10 0 0)
          (vec_add (vec_add (mkFvec (ratio 1 10) (float_of_Z 0) (float_of_Z 0))
                            (Fvec_of_Z 0 0 0)) (Fvec_of_Z 0 0 0)) /\
    fx adj = PrimFloat.opp (ratio 1 10) /\
    PrimFloat.eqb (fx adj) (fx (vec_sub o (Fvec_of_Z 10 0 0))) = false /\
    adj <> vec_sub o (Fvec_of_Z 10 0 0).
Proof.
  eexists _, _, _. split; [vm_compute; reflexivity |].
  split; [reflexivity |]. split; [reflexivity |].
  split; [vm_compute; reflexivity |].
  split; [vm_compute; reflexivity |].
  split; [vm_compute; reflexivity |].
  intros Heq. apply (f_equal (fun v => PrimFloat.eqb (fx v)
                       (PrimFloat.opp (ratio 1 10)))) in Heq.
  vm_compute in Heq. discriminate.
Qed.

(** ** Composition *)

Section Dict.
Context {A : Type}.
Implicit Types (d : pydict A) (k : pyname).

Lemma dict_get_setitem_eq k (v : A) d :
  dict_get k (dict_setitem k v d) = Some v.
Proof.
  induction d as [| [k' v'] d IH]; simpl.
  - by rewrite decide_True.
  - destruct (decide (k' = k)) as [-> | Hne]; simpl.
    + by rewrite decide_True.
    + by rewrite decide_False.
Qed.

Lemma dict_get_setitem_ne k k' (v : A) d :
  k <> k' -> dict_get k' (dict_setitem k v d) = dict_get k' d.
Proof.
  intros Hne. induction d as [| [k0 v0] d IH]; simpl.
  - by rewrite decide_False.
  - destruct (decide (k0 = k)) as [-> | Hne0]; simpl.
    + by rewrite !decide_False.
    + destruct (decide (k0 = k')); [done | exact IH].
Qed.

Lemma dict_get_is_Some k d : is_Some (dict_get k d) <-> k ∈ dict_keys d.
Proof.
  unfold dict_keys. induction d as [| [k' v'] d IH]; simpl.
  - split; [intros [? ?]; done | intros Hin; by apply elem_of_nil in Hin].
  - rewrite elem_of_cons. destruct (decide (k' = k)) as [-> | Hne].
    + split; [by left | by eexists].
    + rewrite IH. split; [by right | intros [-> | ?]; done].
Qed.

Lemma dict_keys_setitem_present k (v : A) d :
  k ∈ dict_keys d -> dict_keys (dict_setitem k v d) = dict_keys d.
Proof.
  unfold dict_keys. induction d as [| [k' v'] d IH]; simpl.
  - intros Hin. by apply elem_of_nil in Hin.
  - intros Hin. destruct (decide (k' = k)) as [-> | Hne]; simpl; [done |].
    apply elem_of_cons in Hin as [-> | Hin]; [done |].
    f_equal. by apply IH.
Qed.

Lemma key_set_setitem k (v : A) d :
  key_set (dict_setitem k v d) = {[k]} ∪ key_set d.
Proof.
  induction d as [| [k' v'] d IH]; simpl.
  - reflexivity.
  - destruct (decide (k' = k)) as [-> | Hne].
    + change ({[k]} ∪ key_set d = {[k]} ∪ ({[k]} ∪ key_set d)).
      by rewrite (assoc_L (∪)), (idemp_L (∪)).
    + change ({[k']} ∪ key_set (dict_setitem k v d) =
              {[k]} ∪ ({[k']} ∪ key_set d)).
      rewrite IH, !(assoc_L (∪)). f_equal. apply (comm_L (∪)).
Qed.

End Dict.

Section Composition.
Context {V Shape : Type} `{Vector V} `{ShapeKernel Shape}.
Implicit Types (self child : Obj3D (V := V) (Shape := Shape)).
Implicit Types (s : store (V := V)) (r : ChildRecord Shape).

Lemma add_child_run self child child_sum nm s dc ds dr cd cw ch cs :
  dict_child self = Some dc ->
  dict_child_sum self = Some ds ->
  dict_child_res self = Some dr ->
  d_o child = Some cd ->
  w_o child = Some cw ->
  h_o child = Some ch ->
  shp child = Some cs ->
  add_child self child child_sum nm s =
    (Return (registered self (mkChildRecord cd cw ch cs) child_sum nm dc ds dr),
     s).
Proof.
  intros Hdc Hds Hdr Hcd Hcw Hch Hcs.
  unfold add_child, registered, child_record, bind, getattr.
  rewrite Hcd, Hcw, Hch, Hcs, Hdc. unfold ret.
  destruct (child_sum =? 1); simpl; rewrite ?Hds, ?Hdr; reflexivity.
Qed.

Lemma registered_tables self r child_sum nm dc ds dr :
  dict_child_sum self = Some ds ->
  dict_child_res self = Some dr ->
  dict_child (registered self r child_sum nm dc ds dr)
    = Some (dict_setitem nm r dc) /\
  dict_child_sum (registered self r child_sum nm dc ds dr)
    = Some (if child_sum =? 1 then dict_setitem nm r ds else ds) /\
  dict_child_res (registered self r child_sum nm dc ds dr)
    = Some (if child_sum =? 1 then dr else dict_setitem nm r dr).
Proof.
  intros Hds Hdr. unfold registered.
  destruct (child_sum =? 1); simpl; by rewrite ?Hds, ?Hdr.
Qed.

(** C5.  Registering under a name the parent already has a child under
    raises nothing and overwrites: the full table keeps its names, in
    their order, holds the new child's record under that name and what it
    held before under every other; so does the sub-table the tag selects;
    looking the name up afterwards gives the new record. *)
Theorem add_child_overwrites self child child_sum nm s dc ds dr cd cw ch cs :
  dict_child self = Some dc ->
  dict_child_sum self = Some ds ->
  dict_child_res self = Some dr ->
  d_o child = Some cd ->
  w_o child = Some cw ->
  h_o child = Some ch ->
  shp child = Some cs ->
  nm ∈ dict_keys dc ->
  exists self' dc' tagged,
    add_child self child child_sum nm s = (Return self', s) /\
    get_child self' s = (Return dc', s) /\
    dict_keys dc' = dict_keys dc /\
    (forall k, k <> nm -> dict_get k dc' = dict_get k dc) /\
    get_record self' nm s = (Return (mkChildRecord cd cw ch cs), s) /\
    (if child_sum =? 1 then dict_child_sum self' else dict_child_res self')
      = Some tagged /\
    dict_get nm tagged = Some (mkChildRecord cd cw ch cs).
Proof.
  intros Hdc Hds Hdr Hcd Hcw Hch Hcs Hin.
  set (r := mkChildRecord cd cw ch cs).
  destruct (registered_tables self r child_sum nm dc ds dr Hds Hdr)
    as (Hdc' & Hds' & Hdr').
  exists (registered self r child_sum nm dc ds dr), (dict_setitem nm r dc),
         (dict_setitem nm r (if child_sum =? 1 then ds else dr)).
  split; [by apply add_child_run |].
  split; [unfold get_child; by rewrite Hdc' |].
  split; [by apply dict_keys_setitem_present |].
  split; [intros k Hne; by apply dict_get_setitem_ne |].
  split.
  - unfold get_record, bind. rewrite Hdc'. simpl.
    by rewrite dict_get_setitem_eq.
  - destruct (child_sum =? 1); (split; [done | apply dict_get_setitem_eq]).
Qed.

(** C3, as amended.  The record [add_child] stores holds the child's three
    index maps by reference, not as copies: read in any later store, it
    shows the maps as the child has them then, so an entry written into
    the child's [d_o], [w_o] or [h_o] after the registration shows up in
    the parent's record.  The shape is the one the child had when it was
    registered. *)
Theorem registration_shares_maps self child child_sum nm s dc ds dr cd cw ch cs :
  dict_child self = Some dc ->
  dict_child_sum self = Some ds ->
  dict_child_res self = Some dr ->
  d_o child = Some cd ->
  w_o child = Some cw ->
  h_o child = Some ch ->
  shp child = Some cs ->
  exists self' r,
    add_child self child child_sum nm s = (Return self', s) /\
    get_record self' nm s = (Return r, s) /\
    (forall s1,
       read_record r s1 =
         (Return {| view_d_o := deref s1 cd; view_w_o := deref s1 cw;
                    view_h_o := deref s1 ch; view_shp := cs |}, s1)) /\
    (forall l s1 k v,
       l = cd \/ l = cw \/ l = ch ->
       exists s2 view,
         setitem l k v s1 = (Return tt, s2) /\
         read_record r s2 = (Return view, s2) /\
         (l = cd -> view_d_o view !! k = Some v) /\
         (l = cw -> view_w_o view !! k = Some v) /\
         (l = ch -> view_h_o view !! k = Some v)).
Proof.
  intros Hdc Hds Hdr Hcd Hcw Hch Hcs.
  set (r := mkChildRecord cd cw ch cs).
  destruct (registered_tables self r child_sum nm dc ds dr Hds Hdr)
    as (Hdc' & _ & _).
  exists (registered self r child_sum nm dc ds dr), r.
  split; [by apply add_child_run |].
  split.
  { unfold get_record, bind. rewrite Hdc'. simpl.
    by rewrite dict_get_setitem_eq. }
  split; [reflexivity |].
  intros l s1 k v Hl. do 2 eexists.
  split; [reflexivity |]. split; [reflexivity |].
  unfold deref; simpl.
  repeat split; intros <-;
    by rewrite lookup_total_insert_eq, lookup_insert_eq.
Qed.

(** *** Synthesis *)

Lemma append_child_shp_run self dc keys lst s :
  dict_child self = Some dc ->
  Forall (fun k => k ∈ dict_keys dc) keys ->
  append_child_shp self keys lst s =
    (Return (lst ++ shapes_under dc keys), s).
Proof.
  intros Hdc Hkeys. revert lst.
  induction Hkeys as [| k keys Hk _ IH]; intros lst; simpl.
  - by rewrite app_nil_r.
  - unfold bind, getattr. rewrite Hdc. unfold ret at 1.
    apply dict_get_is_Some in Hk as [r Hr]. rewrite Hr. simpl.
    rewrite IH. by rewrite <- app_assoc.
Qed.

(** [make_parent] on a parent with a child and a non-empty sub-table, all
    of whose sub-table names are in the full table: the shapes fused are
    those the full table holds under the names of each sub-table. *)
Lemma make_parent_run self name s dc ds dr :
  dict_child self = Some dc ->
  dict_child_sum self = Some ds ->
  dict_child_res self = Some dr ->
  dc <> [] ->
  ds <> [] \/ dr <> [] ->
  Forall (fun k => k ∈ dict_keys dc) (dict_keys ds) ->
  Forall (fun k => k ∈ dict_keys dc) (dict_keys dr) ->
  make_parent self name s =
    (Return (with_shp (cut (fuseshplist (shapes_under dc (dict_keys ds)))
                           (fuseshplist (shapes_under dc (dict_keys dr))))
                      self,
             ReturnedSelf), s).
Proof.
  intros Hdc Hds Hdr Hne Hsub Hks Hkr.
  unfold make_parent, bind, getattr. rewrite Hdc, Hds, Hdr. unfold ret.
  destruct dc as [| e dc']; [done |].
  destruct ds as [| e1 ds'], dr as [| e2 dr'];
    [by destruct Hsub | ..];
    cbn [length Nat.eqb];
    rewrite (append_child_shp_run self (e :: dc') _ [] s Hdc Hks);
    rewrite (append_child_shp_run self (e :: dc') _ [] s Hdc Hkr);
    reflexivity.
Qed.

Lemma agrees_shapes (dc d : pydict (ChildRecord Shape)) :
  agrees dc d ->
  shapes_under dc (dict_keys d) = shapes_of d /\
  Forall (fun k => k ∈ dict_keys dc) (dict_keys d).
Proof.
  unfold agrees, shapes_under, shapes_of, dict_keys, dict_values.
  induction 1 as [| [k r] d Hhead _ [IHs IHk]]; simpl; [done |].
  simpl in Hhead. split.
  - rewrite Hhead. by f_equal.
  - constructor; [| exact IHk].
    apply dict_get_is_Some. destruct (dict_get k dc); [by eexists | done].
Qed.

Lemma shapes_under_elem (dc : pydict (ChildRecord Shape)) keys k r :
  k ∈ keys -> dict_get k dc = Some r -> child_shp r ∈ shapes_under dc keys.
Proof.
  intros Hk Hr. unfold shapes_under. apply list_elem_of_omap.
  exists k. split; [exact Hk |]. by rewrite Hr.
Qed.

Lemma key_set_elem {A} (d : pydict A) k : k ∈ key_set d <-> k ∈ dict_keys d.
Proof. unfold key_set. apply elem_of_list_to_set. Qed.

(** C4, as amended.  On a parent with at least one registered child and a
    non-empty sub-table, whose sub-table records each have the shape the
    full table holds under the same name (so it is when no name was
    registered again under the opposite tag), [make_parent] sets the shape
    to the union of the additive records' shapes with the union of the
    subtractive records' shapes cut from it, and hands back the parent. *)
Theorem make_parent_shape self name s dc ds dr :
  dict_child self = Some dc ->
  dict_child_sum self = Some ds ->
  dict_child_res self = Some dr ->
  dc <> [] ->
  ds <> [] \/ dr <> [] ->
  agrees dc ds ->
  agrees dc dr ->
  make_parent self name s =
    (Return (with_shp (cut (fuseshplist (shapes_of ds))
                           (fuseshplist (shapes_of dr))) self,
             ReturnedSelf), s).
Proof.
  intros Hdc Hds Hdr Hne Hsub Has Har.
  destruct (agrees_shapes dc ds Has) as [<- Hks].
  destruct (agrees_shapes dc dr Har) as [<- Hkr].
  by apply make_parent_run.
Qed.

(** C7.  With no child registered [make_parent] changes nothing: it hands
    back [None], raises nothing, and the parent, its shape included, and
    the store are as they were. *)
Theorem make_parent_no_children self name s :
  dict_child self = Some [] ->
  make_parent self name s = (Return (self, ReturnedNone), s) /\
  (forall self' out s',
     make_parent self name s = (Return (self', out), s') ->
     shp self' = shp self).
Proof.
  intros Hdc.
  assert (Hrun : make_parent self name s = (Return (self, ReturnedNone), s)).
  { unfold make_parent, bind, getattr. by rewrite Hdc. }
  split; [exact Hrun |].
  intros self' out s' Hrun'. rewrite Hrun in Hrun'. by inversion Hrun'.
Qed.

(** *** The three tables *)

Lemma registered_cover self r child_sum nm dc ds dr :
  dict_child_sum self = Some ds ->
  dict_child_res self = Some dr ->
  key_set dc = key_set ds ∪ key_set dr ->
  tables_cover (registered self r child_sum nm dc ds dr).
Proof.
  intros Hds Hdr Hcover. unfold tables_cover.
  destruct (registered_tables self r child_sum nm dc ds dr Hds Hdr)
    as (-> & -> & ->).
  rewrite key_set_setitem, Hcover.
  destruct (child_sum =? 1); rewrite key_set_setitem.
  - by rewrite (assoc_L (∪)).
  - by rewrite !(assoc_L (∪)), (comm_L (∪) {[nm]}).
Qed.

Lemma tables_cover_inv self :
  tables_cover self ->
  exists dc ds dr,
    dict_child self = Some dc /\ dict_child_sum self = Some ds /\
    dict_child_res self = Some dr /\ key_set dc = key_set ds ∪ key_set dr.
Proof.
  unfold tables_cover.
  destruct (dict_child self) as [dc |]; [| done].
  destruct (dict_child_sum self) as [ds |]; [| done].
  destruct (dict_child_res self) as [dr |]; [| done].
  intros Hcover. by exists dc, ds, dr.
Qed.

Lemma add_child_cover self child child_sum nm s :
  tables_cover self ->
  registrable child ->
  exists self',
    add_child self child child_sum nm s = (Return self', s) /\
    tables_cover self'.
Proof.
  intros (dc & ds & dr & Hdc & Hds & Hdr & Hcover)%tables_cover_inv.
  intros ([cd Hcd] & [cw Hcw] & [ch Hch] & [cs Hcs]).
  eexists. split.
  - by apply (add_child_run self child child_sum nm s dc ds dr cd cw ch cs).
  - by apply registered_cover.
Qed.

Lemma add_children_cover self calls s :
  tables_cover self ->
  Forall (fun call => registrable call.1.1) calls ->
  exists self',
    add_children self calls s = (Return self', s) /\ tables_cover self'.
Proof.
  intros Hcover Hcalls. revert self Hcover.
  induction Hcalls as [| [[child child_sum] nm] calls Hchild _ IH];
    intros self Hcover; simpl.
  - by exists self.
  - destruct (add_child_cover self child child_sum nm s Hcover Hchild)
      as (self1 & Hrun & Hcover1).
    unfold bind. rewrite Hrun. by apply IH.
Qed.

Lemma cover_keys self dc ds dr :
  dict_child self = Some dc ->
  dict_child_sum self = Some ds ->
  dict_child_res self = Some dr ->
  tables_cover self ->
  Forall (fun k => k ∈ dict_keys dc) (dict_keys ds) /\
  Forall (fun k => k ∈ dict_keys dc) (dict_keys dr).
Proof.
  intros Hdc Hds Hdr. unfold tables_cover. rewrite Hdc, Hds, Hdr.
  intros Hcover.
  split; apply Forall_forall; intros k Hk;
    apply key_set_elem; rewrite Hcover; apply elem_of_union;
    [left | right]; by apply key_set_elem.
Qed.

Lemma setitem_key {A} nm (v : A) (d : pydict A) :
  nm ∈ dict_keys (dict_setitem nm v d).
Proof. apply dict_get_is_Some. rewrite dict_get_setitem_eq. by eexists. Qed.

Lemma key_nonempty {A} nm (d : pydict A) : nm ∈ dict_keys d -> d <> [].
Proof. intros Hin ->. by apply elem_of_nil in Hin. Qed.

Lemma init_tables_cover self ad aw ah nm s :
  exists self' s',
    __init__ self ad aw ah nm s = (Return self', s') /\ tables_cover self'.
Proof.
  destruct (init_run self ad aw ah nm s)
    as (self' & s' & Hrun & _ & _ & _ & _ & _ & _ & _ & _ & _
        & Hdc & Hds & Hdr & _).
  exists self', s'. split; [exact Hrun |].
  unfold tables_cover. rewrite Hdc, Hds, Hdr. reflexivity.
Qed.

(** C10.  After a run of [add_child] calls on a parent whose full table
    has the names of its two sub-tables together (as on a parent fresh
    from [__init__]), it still has.  The sub-tables need not be disjoint:
    registering a child under a name the opposite sub-table already has
    leaves the name in both, and [make_parent] then fuses that child's
    shape, the latest under the name, into the additive union and into
    the subtractive one. *)
Theorem child_tables_cover_not_disjoint self calls s :
  tables_cover self ->
  Forall (fun call => registrable call.1.1) calls ->
  exists self',
    add_children self calls s = (Return self', s) /\
    tables_cover self' /\
    forall child child_sum nm name cs opposite,
      registrable child ->
      shp child = Some cs ->
      (if child_sum =? 1 then dict_child_res self' else dict_child_sum self')
        = Some opposite ->
      nm ∈ dict_keys opposite ->
      exists self'' ds dr sums ress,
        add_child self' child child_sum nm s = (Return self'', s) /\
        tables_cover self'' /\
        dict_child_sum self'' = Some ds /\
        dict_child_res self'' = Some dr /\
        nm ∈ dict_keys ds /\
        nm ∈ dict_keys dr /\
        make_parent self'' name s =
          (Return (with_shp (cut (fuseshplist sums) (fuseshplist ress)) self'',
                   ReturnedSelf), s) /\
        cs ∈ sums /\
        cs ∈ ress.
Proof.
  intros Hcover Hcalls.
  destruct (add_children_cover self calls s Hcover Hcalls)
    as (self' & Hrun & Hcover').
  exists self'. split; [exact Hrun |]. split; [exact Hcover' |].
  intros child child_sum nm name cs opposite Hchild Hcs Hopp Hnm.
  destruct (tables_cover_inv self' Hcover')
    as (dc & ds & dr & Hdc & Hds & Hdr & Hkeys).
  destruct Hchild as ([cd Hcd] & [cw Hcw] & [ch Hch] & _).
  set (r := mkChildRecord cd cw ch cs).
  set (self'' := registered self' r child_sum nm dc ds dr).
  destruct (registered_tables self' r child_sum nm dc ds dr Hds Hdr)
    as (Hdc'' & Hds'' & Hdr'').
  fold self'' in Hdc'', Hds'', Hdr''.
  assert (Hcover'' : tables_cover self'') by by apply registered_cover.
  assert (Hin_s : nm ∈ dict_keys
                    (if child_sum =? 1 then dict_setitem nm r ds else ds)).
  { destruct (child_sum =? 1); [apply setitem_key |].
    rewrite Hds in Hopp. by inversion Hopp. }
  assert (Hin_r : nm ∈ dict_keys
                    (if child_sum =? 1 then dr else dict_setitem nm r dr)).
  { destruct (child_sum =? 1); [| apply setitem_key].
    rewrite Hdr in Hopp. by inversion Hopp. }
  destruct (cover_keys self'' _ _ _ Hdc'' Hds'' Hdr'' Hcover'') as [Hks Hkr].
  eexists self'', _, _, _, _.
  split; [by apply add_child_run |].
  split; [exact Hcover'' |].
  split; [exact Hds'' |]. split; [exact Hdr'' |].
  split; [exact Hin_s |]. split; [exact Hin_r |].
  split.
  - apply (make_parent_run self'' name s _ _ _ Hdc'' Hds'' Hdr'');
      [ apply (key_nonempty nm), setitem_key
      | left; by apply (key_nonempty nm)
      | exact Hks | exact Hkr ].
  - split; apply (shapes_under_elem _ _ nm r);
      first [assumption | apply dict_get_setitem_eq].
Qed.

End Composition.

(** C3 as stated does not hold: the record is no copy.  An entry written
    into the child's depth map after the registration is there when the
    parent's record is read again. *)
Lemma registered_record_follows_child :
  exists before after,
    fst (write_after_registration empty_store) = Return (before, after) /\
    view_d_o before = <[0 := mkZvec 0 0 0]> ∅ /\
    view_d_o after = <[1 := mkZvec 5 0 0]> (<[0 := mkZvec 0 0 0]> ∅) /\
    view_d_o before !! 1 = None /\
    view_d_o after !! 1 = Some (mkZvec 5 0 0).
Proof.
  eexists _, _. split; [vm_compute; reflexivity |].
  repeat split; vm_compute; reflexivity.
Qed.

Lemma registration_shares_maps_witness :
  exists self' r,
    add_child sample_frame plate 1 (Some "placa") sample_store
      = (Return self', sample_store) /\
    get_record self' (Some "placa") sample_store = (Return r, sample_store) /\
    (forall s1 : store (V := Zvec),
       read_record r s1 =
         (Return {| view_d_o := deref s1 4%positive;
                    view_w_o := deref s1 5%positive;
                    view_h_o := deref s1 6%positive;
                    view_shp := Primitive 1 |}, s1)) /\
    (forall l (s1 : store (V := Zvec)) k v,
       l = 4%positive \/ l = 5%positive \/ l = 6%positive ->
       exists s2 view,
         setitem l k v s1 = (Return tt, s2) /\
         read_record r s2 = (Return view, s2) /\
         (l = 4%positive -> view_d_o view !! k = Some v) /\
         (l = 5%positive -> view_w_o view !! k = Some v) /\
         (l = 6%positive -> view_h_o view !! k = Some v)).
Proof.
  exact (registration_shares_maps sample_frame plate 1 (Some "placa")
           sample_store [] [] [] 4%positive 5%positive 6%positive (Primitive 1)
           eq_refl eq_refl eq_refl eq_refl eq_refl eq_refl eq_refl).
Defined.

(** C4 as stated does not hold: with one name registered as additive with
    a first part and then as subtractive with a second, the additive
    sub-table holds the first part's shape, yet the parent's shape is the
    second part cut from itself. *)
Lemma opposite_tag_shape :
  exists parent ds dr,
    fst (opposite_tag_registration empty_store)
      = Return (parent, ReturnedSelf) /\
    dict_child_sum parent = Some ds /\
    dict_child_res parent = Some dr /\
    shapes_of ds = [Primitive 1] /\
    shapes_of dr = [Primitive 2] /\
    shp parent = Some (Cut (Fuse [Primitive 2]) (Fuse [Primitive 2])) /\
    shp parent <>
      Some (cut (fuseshplist (shapes_of ds)) (fuseshplist (shapes_of dr))).
Proof.
  eexists _, _, _. split; [vm_compute; reflexivity |].
  repeat (split; [reflexivity |]). discriminate.
Qed.

Lemma make_parent_shape_witness :
  make_parent perforated_parent (Some "placa perforada") sample_store =
    (Return (with_shp (Cut (Fuse [Primitive 1]) (Fuse [Primitive 2]))
                      perforated_parent,
             ReturnedSelf), sample_store).
Proof.
  rewrite (make_parent_shape perforated_parent (Some "placa perforada")
             sample_store
             [(Some "placa", plate_record); (Some "hole", hole_record)]
             [(Some "placa", plate_record)]
             [(Some "hole", hole_record)]);
    [ reflexivity | reflexivity | reflexivity | reflexivity | discriminate
    | left; discriminate
    | repeat constructor | repeat constructor ].
Defined.

Lemma add_child_overwrites_witness :
  exists self' dc' tagged,
    add_child plate_parent hole 1 (Some "placa") sample_store
      = (Return self', sample_store) /\
    get_child self' sample_store = (Return dc', sample_store) /\
    dict_keys dc' = dict_keys [(Some "placa", plate_record)] /\
    (forall k, k <> Some "placa" ->
               dict_get k dc' = dict_get k [(Some "placa", plate_record)]) /\
    get_record self' (Some "placa") sample_store
      = (Return hole_record, sample_store) /\
    (if 1 =? 1 then dict_child_sum self' else dict_child_res self')
      = Some tagged /\
    dict_get (Some "placa") tagged = Some hole_record.
Proof.
  exact (add_child_overwrites plate_parent hole 1 (Some "placa")
           sample_store [(Some "placa", plate_record)]
           [(Some "placa", plate_record)] []
           7%positive 8%positive 9%positive (Primitive 2)
           eq_refl eq_refl eq_refl eq_refl eq_refl eq_refl eq_refl
           (proj2 (list_elem_of_singleton _ _) eq_refl)).
Defined.

Lemma make_parent_no_children_witness :
  make_parent leaf_frame (Some "leaf") sample_store
    = (Return (leaf_frame, ReturnedNone), sample_store) /\
  (forall self' out s',
     make_parent leaf_frame (Some "leaf") sample_store
       = (Return (self', out), s') ->
     shp self' = Some (Primitive 7)).
Proof.
  exact (make_parent_no_children leaf_frame (Some "leaf") sample_store eq_refl).
Defined.

Lemma child_tables_cover_not_disjoint_witness :
  exists self' self'' ds dr sums ress,
    add_children sample_frame [(plate, 1, Some "part")] sample_store
      = (Return self', sample_store) /\
    tables_cover self' /\
    add_child self' hole 0 (Some "part") sample_store
      = (Return self'', sample_store) /\
    tables_cover self'' /\
    dict_child_sum self'' = Some ds /\
    dict_child_res self'' = Some dr /\
    Some "part" ∈ dict_keys ds /\
    Some "part" ∈ dict_keys dr /\
    make_parent self'' (Some "parent") sample_store =
      (Return (with_shp (cut (fuseshplist sums) (fuseshplist ress)) self'',
               ReturnedSelf), sample_store) /\
    Primitive 2 ∈ sums /\
    Primitive 2 ∈ ress.
Proof.
  assert (Hcover : tables_cover sample_frame) by reflexivity.
  assert (Hcalls : Forall (fun call => registrable call.1.1)
                     [(plate, 1, Some "part")]).
  { repeat constructor; by eexists. }
  assert (Hhole : registrable hole) by (repeat split; by eexists).
  destruct (child_tables_cover_not_disjoint sample_frame
              [(plate, 1, Some "part")] sample_store Hcover Hcalls)
    as (self' & Hrun & Hcover' & Hagain).
  assert (Hself' : self' =
            registered sample_frame
              (mkChildRecord 4%positive 5%positive 6%positive (Primitive 1))
              1 (Some "part") [] [] []).
  { change (add_children sample_frame [(plate, 1, Some "part")] sample_store)
      with (Return (registered sample_frame
                      (mkChildRecord 4%positive 5%positive 6%positive
                         (Primitive 1))
                      1 (Some "part") [] [] []), sample_store) in Hrun.
    by inversion Hrun. }
  destruct (Hagain hole 0 (Some "part") (Some "parent") (Primitive 2)
              [(Some "part",
                mkChildRecord 4%positive 5%positive 6%positive (Primitive 1))]
              Hhole eq_refl)
    as (self'' & ds & dr & sums & ress & Hrest).
  { by rewrite Hself'. }
  { apply list_elem_of_singleton. reflexivity. }
  exists self', self'', ds, dr, sums, ress.
  split; [exact Hrun |]. split; [exact Hcover' |]. exact Hrest.
Defined.

(** * Further properties of the class *)

(** ** Resolution in general *)

Section ResolverMore.
Context {V Shape : Type} `{Vector V} `{ShapeKernel Shape}.
Implicit Types (self : Obj3D (V := V) (Shape := Shape)) (s : store (V := V)).

(** X1.  With a symmetry flag other than 1 the lookup is direct: an index
    resolves to the entry under that very key, a negative index included
    (nothing is mirrored), and to [None] with one logged line when the key
    is missing. *)
Theorem uncentred_resolution ax self s cen l index :
  SymmetryFlag ax self = Some cen ->
  cen <> 1 ->
  IndexMapRef ax self = Some l ->
  (forall v, deref s l !! index = Some v ->
             resolveOffset ax self index s = (Return (Some v), s)) /\
  (deref s l !! index = None ->
   resolveOffset ax self index s =
     (Return None, logged (key_message ax cen index) s)).
Proof.
  intros Hcen Hne Hmap.
  rewrite (resolveOffset_run ax self index s cen l Hcen Hmap).
  unfold offset_of. destruct (Z.eqb_spec cen 1) as [? | _]; [done |].
  split; [intros v Hv | intros Hv]; by rewrite Hv.
Qed.

Lemma offset_of_is_Some cen (m : gmap Z V) index :
  is_Some (offset_of cen m index) <->
  Forall (fun k => is_Some (m !! k)) (keys_read cen index).
Proof.
  unfold offset_of, keys_read.
  destruct (cen =? 1); [destruct (index <=? 0) |];
    rewrite ?Forall_cons, ?Forall_nil.
  - tauto.
  - destruct (m !! 0), (m !! index); split;
      try (intros [? ?]; done); try (intros ([? ?] & [? ?] & _); done);
      try (intros _; by eexists); try (intros _; repeat split; by eexists).
  - tauto.
Qed.

(** X2.  A resolution hands back a vector exactly when every key it reads
    is in the index map: [|i|] for [i <= 0] on a centred axis, both 0 and
    [i] for [i > 0] on a centred axis, [i] itself otherwise. *)
Theorem resolution_succeeds_iff ax self s cen l index :
  SymmetryFlag ax self = Some cen ->
  IndexMapRef ax self = Some l ->
  (exists v, resolveOffset ax self index s = (Return (Some v), s)) <->
  Forall (fun k => is_Some (deref s l !! k)) (keys_read cen index).
Proof.
  intros Hcen Hmap.
  rewrite (resolveOffset_run ax self index s cen l Hcen Hmap).
  rewrite <- offset_of_is_Some.
  destruct (offset_of cen (deref s l) index) as [v |]; split.
  - by eexists.
  - intros _. by exists v.
  - intros [v Hv]. discriminate.
  - intros [v Hv]. discriminate.
Qed.

(** X3.  Whatever the instance and the index, and whether it returns or
    raises, a resolution never touches an index map and allocates
    nothing: the store it leaves differs from the one it found by one
    logged line at most. *)
Theorem resolution_keeps_heap ax self index s :
  same_heap s (snd (resolveOffset ax self index s)) /\
  (log (snd (resolveOffset ax self index s)) = log s \/
   exists msg, log (snd (resolveOffset ax self index s)) = log s ++ [msg]).
Proof.
  destruct (SymmetryFlag ax self) as [cen |] eqn:Hcen.
  - destruct (IndexMapRef ax self) as [l |] eqn:Hmap.
    + rewrite (resolveOffset_run ax self index s cen l Hcen Hmap).
      destruct (offset_of cen (deref s l) index); simpl.
      * split; [done | by left].
      * split; [done | right; by eexists].
    + destruct ax; simpl in Hcen, Hmap; simpl;
        unfold get_o_to_d, get_o_to_w, get_o_to_h, bind, getattr,
          try_except_KeyError;
        rewrite Hcen, Hmap; simpl;
        (destruct (cen =? 1); [destruct (index <=? 0) |]); simpl;
        (split; [done | by left]).
  - destruct ax; simpl in Hcen; simpl;
      unfold get_o_to_d, get_o_to_w, get_o_to_h, bind, getattr;
      rewrite Hcen; simpl; (split; [done | by left]).
Qed.

End ResolverMore.

Lemma uncentred_resolution_witness :
  (forall v, deref sample_store 2%positive !! (-1) = Some v ->
             resolveOffset Width sample_frame (-1) sample_store
               = (Return (Some v), sample_store)) /\
  (deref sample_store 2%positive !! (-1) = None ->
   resolveOffset Width sample_frame (-1) sample_store =
     (Return None, logged (key_message Width 0 (-1)) sample_store)).
Proof.
  apply (uncentred_resolution Width sample_frame sample_store 0 2%positive (-1));
    [reflexivity | lia | reflexivity].
Defined.

Lemma resolution_succeeds_iff_witness :
  (exists v, resolveOffset Depth sample_frame 2 sample_store
               = (Return (Some v), sample_store)) <->
  Forall (fun k => is_Some (deref sample_store 1%positive !! k))
         (keys_read 1 2).
Proof.
  apply (resolution_succeeds_iff Depth sample_frame sample_store 1 1%positive 2);
    reflexivity.
Defined.

(** ** Construction *)

Section InitMore.
Context {V Shape : Type} `{Vector V} `{ShapeKernel Shape}.
Implicit Types (self : Obj3D (V := V) (Shape := Shape)) (s : store (V := V)).

Lemma init_keeps self ad aw ah nm s :
  exists self' s',
    __init__ self ad aw ah nm s = (Return self', s') /\
    (shp self' = shp self /\ pos self' = pos self /\
     pos_o self' = pos_o self) /\
    (d0_cen self' = d0_cen self /\ w0_cen self' = w0_cen self /\
     h0_cen self' = h0_cen self) /\
    (pos_d self' = anchor_after ad (pos_d self) /\
     pos_w self' = anchor_after aw (pos_w self) /\
     pos_h self' = anchor_after ah (pos_h self)) /\
    name self' = Some nm /\
    next s' = Pos.succ (Pos.succ (Pos.succ (next s))) /\
    (forall l, (l < next s)%positive -> deref s' l = deref s l).
Proof.
  destruct s as [h n lg].
  destruct ad, aw, ah; do 2 eexists;
    (split; [run_model; reflexivity |]);
    unfold deref, anchor_after; run_model;
    (repeat split; try reflexivity);
    intros l Hl;
    repeat (rewrite lookup_total_insert_ne by lia); reflexivity.
Qed.

(** X4.  [__init__] creates the offset maps of an instance at three
    addresses that are new and differ from one another, and leaves every
    map that existed before as it was: no two instances share a map, and
    constructing one instance changes no other. *)
Theorem init_fresh_maps self ad aw ah nm s :
  exists self' s' ld lw lh,
    __init__ self ad aw ah nm s = (Return self', s') /\
    d_o self' = Some ld /\ w_o self' = Some lw /\ h_o self' = Some lh /\
    ld <> lw /\ ld <> lh /\ lw <> lh /\
    (forall l, (l < next s)%positive ->
               l <> ld /\ l <> lw /\ l <> lh /\ deref s' l = deref s l) /\
    (ld < next s')%positive /\ (lw < next s')%positive /\
    (lh < next s')%positive.
Proof.
  destruct (init_run self ad aw ah nm s)
    as (self' & s' & Hrun & Hd & Hw & Hh & _).
  destruct (init_keeps self ad aw ah nm s)
    as (self2 & s2 & Hrun2 & _ & _ & _ & _ & Hnext & Hold).
  rewrite Hrun in Hrun2. inversion Hrun2; subst self2 s2.
  exists self', s', (next s), (Pos.succ (next s)),
         (Pos.succ (Pos.succ (next s))).
  split; [exact Hrun |]. repeat (split; [first [assumption | lia] |]).
  split.
  - intros l Hl. repeat (split; [lia |]). by apply Hold.
  - rewrite Hnext. lia.
Qed.

(** X5.  [__init__] assigns neither the shape, nor [pos], nor [pos_o], nor
    any symmetry flag: what the caller put there before the call is there
    after it (the classes of the catalogue assign [shp] first and call
    [Obj3D.__init__] second).  The anchor index of an axis is set, to 0,
    only when the axis is left out.  The three child tables are reset to
    empty, whatever was registered before. *)
Theorem init_keeps_what_it_does_not_set self ad aw ah nm s :
  exists self' s',
    __init__ self ad aw ah nm s = (Return self', s') /\
    (shp self' = shp self /\ pos self' = pos self /\
     pos_o self' = pos_o self) /\
    (d0_cen self' = d0_cen self /\ w0_cen self' = w0_cen self /\
     h0_cen self' = h0_cen self) /\
    (pos_d self' = anchor_after ad (pos_d self) /\
     pos_w self' = anchor_after aw (pos_w self) /\
     pos_h self' = anchor_after ah (pos_h self)) /\
    (dict_child self' = Some [] /\ dict_child_sum self' = Some [] /\
     dict_child_res self' = Some []).
Proof.
  destruct (init_run self ad aw ah nm s)
    as (self' & s' & Hrun & _ & _ & _ & _ & _ & _ & _ & _ & _
        & Hdc & Hds & Hdr & _).
  destruct (init_keeps self ad aw ah nm s)
    as (self2 & s2 & Hrun2 & Hattrs & Hflags & Hanchor & _).
  rewrite Hrun in Hrun2. inversion Hrun2; subst self2 s2.
  exists self', s'. repeat split; tauto.
Qed.

(** X6.  An instance whose symmetry flags were never assigned cannot be
    used once it is through [__init__], which assigns none: every
    resolution raises [AttributeError] for the flag, and so does
    [set_pos_o], for the flag or for the anchor index. *)
Theorem init_alone_cannot_resolve self ad aw ah nm s :
  d0_cen self = None ->
  w0_cen self = None ->
  h0_cen self = None ->
  exists self' s',
    __init__ self ad aw ah nm s = (Return self', s') /\
    (forall ax index,
       resolveOffset ax self' index s' =
         (Raise (AttributeError (axis_letter ax +:+ "0_cen")), s')) /\
    (forall adjust,
       exists attr,
         set_pos_o self' adjust s' = (Raise (AttributeError attr), s')).
Proof.
  intros Hd Hw Hh.
  destruct (init_keeps self ad aw ah nm s)
    as (self' & s' & Hrun & _ & (Hd' & Hw' & Hh') & (Hpd & _ & _) & _).
  rewrite Hd in Hd'. rewrite Hw in Hw'. rewrite Hh in Hh'.
  exists self', s'. split; [exact Hrun |].
  assert (Hres : forall ax index,
            resolveOffset ax self' index s' =
              (Raise (AttributeError (axis_letter ax +:+ "0_cen")), s')).
  { intros ax index. destruct ax; simpl;
      unfold get_o_to_d, get_o_to_w, get_o_to_h, bind, getattr;
      by rewrite ?Hd', ?Hw', ?Hh'. }
  split; [exact Hres |].
  intros adjust. unfold set_pos_o, bind. rewrite Hpd.
  destruct (anchor_after ad (pos_d self)) as [pd |]; simpl.
  - pose proof (Hres Depth pd) as Hdepth. simpl in Hdepth.
    rewrite Hdepth. by eexists.
  - by eexists.
Qed.

(** X7.  For an axis left out of the call, [__init__] enters [V0] under
    index 0 and makes 0 the anchor index, so that, whatever value the
    symmetry flag has, the anchor of that axis resolves to [V0]. *)
Theorem omitted_axis_anchor ax self ad aw ah nm s cen :
  match ax with Depth => ad | Width => aw | Height => ah end = None ->
  SymmetryFlag ax self = Some cen ->
  exists self' s',
    __init__ self ad aw ah nm s = (Return self', s') /\
    match ax with
    | Depth => pos_d self' | Width => pos_w self' | Height => pos_h self'
    end = Some 0 /\
    resolveOffset ax self' 0 s' = (Return (Some V0), s').
Proof.
  intros Hax Hcen.
  destruct (init_run self ad aw ah nm s)
    as (self' & s' & Hrun & Hd & Hw & Hh & Hmd & Hmw & Hmh & _).
  destruct (init_keeps self ad aw ah nm s)
    as (self2 & s2 & Hrun2 & _ & (Hfd & Hfw & Hfh) & (Hpd & Hpw & Hph) & _).
  rewrite Hrun in Hrun2. inversion Hrun2; subst self2 s2.
  exists self', s'. split; [exact Hrun |].
  destruct ax; simpl in Hax, Hcen; subst; simpl anchor_after in *;
    (split; [assumption |]).
  - rewrite (resolveOffset_run Depth self' 0 s' cen _
               (eq_trans Hfd Hcen) Hd).
    rewrite Hmd. unfold offset_of, initial_map.
    destruct (cen =? 1); simpl; by rewrite lookup_insert_eq.
  - rewrite (resolveOffset_run Width self' 0 s' cen _
               (eq_trans Hfw Hcen) Hw).
    rewrite Hmw. unfold offset_of, initial_map.
    destruct (cen =? 1); simpl; by rewrite lookup_insert_eq.
  - rewrite (resolveOffset_run Height self' 0 s' cen _
               (eq_trans Hfh Hcen) Hh).
    rewrite Hmh. unfold offset_of, initial_map.
    destruct (cen =? 1); simpl; by rewrite lookup_insert_eq.
Qed.

End InitMore.

Lemma init_alone_cannot_resolve_witness :
  exists (self' : Obj3D (V := Zvec) (Shape := solid)) s',
    __init__ blank (Some (mkZvec 1 0 0)) None None (Some "part") empty_store
      = (Return self', s') /\
    (forall ax index,
       resolveOffset ax self' index s' =
         (Raise (AttributeError (axis_letter ax +:+ "0_cen")), s')) /\
    (forall adjust,
       exists attr,
         set_pos_o self' adjust s' = (Raise (AttributeError attr), s')).
Proof.
  exact (init_alone_cannot_resolve blank (Some (mkZvec 1 0 0)) None None
           (Some "part") empty_store eq_refl eq_refl eq_refl).
Defined.

Lemma omitted_axis_anchor_witness :
  exists self' s',
    __init__ sample_frame (Some (mkZvec 1 0 0)) (Some (mkZvec 0 1 0)) None
             (Some "flat") sample_store = (Return self', s') /\
    pos_h self' = Some 0 /\
    resolveOffset Height self' 0 s' = (Return (Some (mkZvec 0 0 0)), s').
Proof.
  exact (omitted_axis_anchor Height sample_frame (Some (mkZvec 1 0 0))
           (Some (mkZvec 0 1 0)) None (Some "flat") sample_store 0
           eq_refl eq_refl).
Defined.

(** ** Displacements and absolute positions *)

Section PositionMore.
Context {V Shape : Type} `{Vector V} `{ShapeKernel Shape}.
Implicit Types (self : Obj3D (V := V) (Shape := Shape)) (s : store (V := V)).

Lemma displacement_resolved ax self pta ptb s va vb :
  resolveOffset ax self pta s = (Return (Some va), s) ->
  resolveOffset ax self ptb s = (Return (Some vb), s) ->
  displacementBetween ax self pta ptb s = (Return (vec_sub vb va), s).
Proof.
  intros Ha Hb. destruct ax; simpl in Ha, Hb; simpl;
    unfold get_d_ab, get_w_ab, get_h_ab, bind;
    rewrite Hb; simpl; by rewrite Ha.
Qed.

(** X8.  What [get_d_ab], [get_w_ab] and [get_h_ab] do with an index that
    does not resolve depends on which one it is.  When the end point
    [ptb] fails, the call raises [AttributeError] (for [sub], looked up
    on [None]) and the start point is never resolved; when only the
    start point [pta] fails, it raises [TypeError].  Either way the
    failed resolution has logged its line, and no vector comes back. *)
Theorem displacement_failures ax self pta ptb s :
  (forall s1,
     resolveOffset ax self ptb s = (Return None, s1) ->
     displacementBetween ax self pta ptb s
       = (Raise (AttributeError "sub"), s1)) /\
  (forall vb s1,
     resolveOffset ax self ptb s = (Return (Some vb), s) ->
     resolveOffset ax self pta s = (Return None, s1) ->
     displacementBetween ax self pta ptb s = (Raise TypeError, s1)).
Proof.
  split.
  - intros s1 Hb. destruct ax; simpl in Hb; simpl;
      unfold get_d_ab, get_w_ab, get_h_ab, bind; by rewrite Hb.
  - intros vb s1 Hb Ha. destruct ax; simpl in Ha, Hb; simpl;
      unfold get_d_ab, get_w_ab, get_h_ab, bind;
      rewrite Hb; simpl; by rewrite Ha.
Qed.

Lemma position_resolved ax self index s o v :
  pos_o self = Some o ->
  resolveOffset ax self index s = (Return (Some v), s) ->
  positionAlong ax self index s = (Return (vec_add o v), s).
Proof.
  intros Ho Hv. destruct ax; simpl in Hv; simpl;
    unfold get_pos_d, get_pos_w, get_pos_h, bind, getattr;
    rewrite Ho; unfold ret at 1; by rewrite Hv.
Qed.

(** X9.  [get_pos_d], [get_pos_w], [get_pos_h] and [get_pos_dwh] read
    [pos_o] before they resolve anything: on an instance whose origin was
    never set they raise [AttributeError] and log nothing, defined index
    or not.  With the origin set, an index that does not resolve ends in
    a [TypeError], after its line is logged: in [get_pos_d], [get_pos_w]
    and [get_pos_h], and in [get_pos_dwh] for the first of its three
    indices, in the order depth, width, height, that does not resolve
    (the later ones are then not tried). *)
Theorem position_failures ax self index s :
  (pos_o self = None ->
   forall pd pw ph,
     positionAlong ax self index s = (Raise (AttributeError "pos_o"), s) /\
     get_pos_dwh self pd pw ph s = (Raise (AttributeError "pos_o"), s)) /\
  (forall o s1,
     pos_o self = Some o ->
     resolveOffset ax self index s = (Return None, s1) ->
     positionAlong ax self index s = (Raise TypeError, s1)) /\
  (forall o pw ph s1,
     pos_o self = Some o ->
     resolveOffset Depth self index s = (Return None, s1) ->
     get_pos_dwh self index pw ph s = (Raise TypeError, s1)) /\
  (forall o pd ph vd s1,
     pos_o self = Some o ->
     resolveOffset Depth self pd s = (Return (Some vd), s) ->
     resolveOffset Width self index s = (Return None, s1) ->
     get_pos_dwh self pd index ph s = (Raise TypeError, s1)) /\
  (forall o pd pw vd vw s1,
     pos_o self = Some o ->
     resolveOffset Depth self pd s = (Return (Some vd), s) ->
     resolveOffset Width self pw s = (Return (Some vw), s) ->
     resolveOffset Height self index s = (Return None, s1) ->
     get_pos_dwh self pd pw index s = (Raise TypeError, s1)).
Proof.
  split; [| split; [| split; [| split]]].
  - intros Ho pd pw ph. split.
    + destruct ax; simpl;
        unfold get_pos_d, get_pos_w, get_pos_h, bind, getattr;
        by rewrite Ho.
    + unfold get_pos_dwh, bind, getattr. by rewrite Ho.
  - intros o s1 Ho Hv. destruct ax; simpl in Hv; simpl;
      unfold get_pos_d, get_pos_w, get_pos_h, bind, getattr;
      rewrite Ho; unfold ret at 1; by rewrite Hv.
  - intros o pw ph s1 Ho Hd. simpl in Hd.
    unfold get_pos_dwh, bind, getattr.
    rewrite Ho. unfold ret at 1. by rewrite Hd.
  - intros o pd ph vd s1 Ho Hd Hw. simpl in Hd, Hw.
    unfold get_pos_dwh, bind, getattr.
    rewrite Ho. unfold ret at 1. rewrite Hd.
    unfold py_add at 1, ret at 1. by rewrite Hw.
  - intros o pd pw vd vw s1 Ho Hd Hw Hh. simpl in Hd, Hw, Hh.
    unfold get_pos_dwh, bind, getattr.
    rewrite Ho. unfold ret at 1. rewrite Hd.
    unfold py_add at 1, ret at 1. rewrite Hw.
    unfold py_add at 1, ret at 1. by rewrite Hh.
Qed.

Lemma get_pos_dwh_resolved self s o pd pw ph od ow oh :
  pos_o self = Some o ->
  resolveOffset Depth self pd s = (Return (Some od), s) ->
  resolveOffset Width self pw s = (Return (Some ow), s) ->
  resolveOffset Height self ph s = (Return (Some oh), s) ->
  get_pos_dwh self pd pw ph s =
    (Return (vec_add (vec_add (vec_add o od) ow) oh), s).
Proof.
  intros Ho Hd Hw Hh. simpl in Hd, Hw, Hh.
  unfold get_pos_dwh, bind, getattr.
  rewrite Ho. unfold ret at 1. rewrite Hd. unfold py_add at 1, ret at 1.
  rewrite Hw. unfold py_add at 1, ret at 1.
  by rewrite Hh.
Qed.

Lemma set_pos_o_run self s adjust p pd pw ph od ow oh :
  pos self = Some p ->
  pos_d self = Some pd ->
  pos_w self = Some pw ->
  pos_h self = Some ph ->
  resolveOffset Depth self pd s = (Return (Some od), s) ->
  resolveOffset Width self pw s = (Return (Some ow), s) ->
  resolveOffset Height self ph s = (Return (Some oh), s) ->
  set_pos_o self adjust s =
    (Return
       (let to_o := vec_negative (vec_add (vec_add od ow) oh) in
        let self' := with_pos_o (vec_add p to_o) self in
        if adjust =? 1 then with_pos_o_adjust to_o self' else self'), s).
Proof.
  intros Hp Hpd Hpw Hph Hd Hw Hh. simpl in Hd, Hw, Hh.
  unfold set_pos_o, bind, getattr.
  rewrite Hpd. unfold ret at 1. rewrite Hd.
  rewrite Hpw. unfold ret at 1. rewrite Hw.
  unfold py_add at 1. unfold ret at 1.
  rewrite Hph. unfold ret at 1. rewrite Hh.
  unfold py_add, ret. rewrite Hp.
  by destruct (adjust =? 1).
Qed.

(** X10.  [set_pos_o] needs all three anchors.  If the depth or the width
    anchor does not resolve it raises [TypeError] once both have been
    tried; if only the height anchor fails it raises [TypeError] after
    that one.  No origin is assigned, and each failed resolution has
    logged its line. *)
Theorem set_pos_o_bad_anchor_raises self s adjust pd pw ph :
  pos_d self = Some pd ->
  pos_w self = Some pw ->
  pos_h self = Some ph ->
  (forall od ow s1 s2,
     resolveOffset Depth self pd s = (Return od, s1) ->
     resolveOffset Width self pw s1 = (Return ow, s2) ->
     od = None \/ ow = None ->
     set_pos_o self adjust s = (Raise TypeError, s2)) /\
  (forall od ow s3,
     resolveOffset Depth self pd s = (Return (Some od), s) ->
     resolveOffset Width self pw s = (Return (Some ow), s) ->
     resolveOffset Height self ph s = (Return None, s3) ->
     set_pos_o self adjust s = (Raise TypeError, s3)).
Proof.
  intros Hpd Hpw Hph. split.
  - intros od ow s1 s2 Hd Hw Hnone. simpl in Hd, Hw.
    unfold set_pos_o, bind, getattr.
    rewrite Hpd. unfold ret at 1. rewrite Hd.
    rewrite Hpw. unfold ret at 1. rewrite Hw.
    destruct Hnone as [-> | ->]; [done | by destruct od].
  - intros od ow s3 Hd Hw Hh. simpl in Hd, Hw, Hh.
    unfold set_pos_o, bind, getattr.
    rewrite Hpd. unfold ret at 1. rewrite Hd.
    rewrite Hpw. unfold ret at 1. rewrite Hw.
    unfold py_add at 1. unfold ret at 1.
    rewrite Hph. unfold ret at 1. by rewrite Hh.
Qed.

(** X11.  [set_pos_o] can be repeated: called again on its own result it
    computes the same origin, and with [adjust] other than 1 it changes
    nothing at all.  In particular an adjustment recorded by one call is
    not reset to [V0] by a later call without [adjust]. *)
Theorem set_pos_o_again self s adjust adjust' p pd pw ph od ow oh :
  pos self = Some p ->
  pos_d self = Some pd ->
  pos_w self = Some pw ->
  pos_h self = Some ph ->
  resolveOffset Depth self pd s = (Return (Some od), s) ->
  resolveOffset Width self pw s = (Return (Some ow), s) ->
  resolveOffset Height self ph s = (Return (Some oh), s) ->
  exists self1 self2,
    set_pos_o self adjust s = (Return self1, s) /\
    set_pos_o self1 adjust' s = (Return self2, s) /\
    pos_o self2 = pos_o self1 /\
    (adjust' <> 1 -> self2 = self1) /\
    (adjust = 1 -> pos_o_adjust self2 = pos_o_adjust self1).
Proof.
  intros Hp Hpd Hpw Hph Hd Hw Hh.
  pose proof (set_pos_o_run self s adjust p pd pw ph od ow oh
                Hp Hpd Hpw Hph Hd Hw Hh) as Hrun1.
  cbv zeta in Hrun1.
  set (to_o := vec_negative (vec_add (vec_add od ow) oh)) in *.
  set (self1 := if adjust =? 1
                then with_pos_o_adjust to_o (with_pos_o (vec_add p to_o) self)
                else with_pos_o (vec_add p to_o) self) in *.
  assert (Hrun2 : set_pos_o self1 adjust' s =
            (Return (let self' := with_pos_o (vec_add p to_o) self1 in
                     if adjust' =? 1 then with_pos_o_adjust to_o self'
                     else self'), s)).
  { apply (set_pos_o_run self1 s adjust' p pd pw ph od ow oh);
      subst self1;
      destruct (adjust =? 1); assumption. }
  cbv zeta in Hrun2.
  eexists _, _. split; [exact Hrun1 |]. split; [exact Hrun2 |].
  subst self1.
  destruct (Z.eqb_spec adjust 1) as [-> | Hne],
           (Z.eqb_spec adjust' 1) as [-> | Hne']; simpl;
    repeat split; try done.
Qed.

Section Exact.
Context `{!VectorLaws V}.

Lemma vec_V0_add (a : V) : vec_add V0 a = a.
Proof. rewrite vec_add_comm. apply vec_add_V0. Qed.

Lemma vec_cancel_l (a x : V) : vec_add a (vec_add (vec_negative a) x) = x.
Proof. by rewrite <- vec_add_assoc, vec_add_negative, vec_V0_add. Qed.

Lemma vec_cancel_r (a x : V) : vec_add (vec_negative a) (vec_add a x) = x.
Proof. by rewrite <- vec_add_assoc, vec_negative_add, vec_V0_add. Qed.

Lemma vec_add_swap (a b c : V) :
  vec_add a (vec_add b c) = vec_add b (vec_add a c).
Proof.
  by rewrite <- !vec_add_assoc, (vec_add_comm a b).
Qed.

Lemma vec_negative_unique (x y : V) :
  vec_add x y = V0 -> y = vec_negative x.
Proof.
  intros Hxy. rewrite <- (vec_cancel_r x y), Hxy. by rewrite vec_add_V0.
Qed.

Lemma vec_sub_self (v : V) : vec_sub v v = V0.
Proof. rewrite vec_sub_add. apply vec_add_negative. Qed.

Lemma vec_sub_chain (a b c : V) :
  vec_add (vec_sub b a) (vec_sub c b) = vec_sub c a.
Proof.
  rewrite !vec_sub_add, vec_add_assoc.
  rewrite (vec_add_comm c (vec_negative b)), (vec_add_swap (vec_negative a)).
  rewrite vec_cancel_l. apply vec_add_comm.
Qed.

Lemma vec_sub_reverse (a b : V) : vec_sub a b = vec_negative (vec_sub b a).
Proof.
  apply vec_negative_unique. rewrite <- (vec_sub_self a).
  apply vec_sub_chain.
Qed.

Lemma vec_sub_translate (o va vb : V) :
  vec_sub (vec_add o vb) (vec_add o va) = vec_sub vb va.
Proof.
  assert (Hneg : vec_negative (vec_add o va)
                 = vec_add (vec_negative o) (vec_negative va)).
  { symmetry. apply vec_negative_unique.
    rewrite vec_add_assoc, (vec_add_swap va), vec_add_negative, vec_add_V0.
    apply vec_add_negative. }
  rewrite !vec_sub_add, Hneg, vec_add_assoc.
  rewrite (vec_add_swap vb). apply vec_cancel_l.
Qed.

Lemma vec_sub_reflected (b c : V) :
  vec_sub (vec_add b (vec_sub b c)) c
  = vec_add (vec_sub b c) (vec_sub b c).
Proof.
  rewrite !vec_sub_add, !vec_add_assoc. f_equal. apply vec_add_swap.
Qed.

(** X12.  Exact arithmetic.  Along one axis the displacements of
    [get_d_ab], [get_w_ab], [get_h_ab] between indices that resolve
    behave as differences: from an index to itself it is [V0], from [b]
    back to [a] it is the opposite of the one from [a] to [b], and the
    one from [a] to [b] plus the one from [b] to [c] is the one from [a]
    to [c]. *)
Theorem displacement_algebra ax self s a b c va vb vc :
  resolveOffset ax self a s = (Return (Some va), s) ->
  resolveOffset ax self b s = (Return (Some vb), s) ->
  resolveOffset ax self c s = (Return (Some vc), s) ->
  exists dab dbc dac,
    displacementBetween ax self a b s = (Return dab, s) /\
    displacementBetween ax self b c s = (Return dbc, s) /\
    displacementBetween ax self a c s = (Return dac, s) /\
    displacementBetween ax self a a s = (Return V0, s) /\
    displacementBetween ax self b a s = (Return (vec_negative dab), s) /\
    vec_add dab dbc = dac.
Proof.
  intros Ha Hb Hc.
  exists (vec_sub vb va), (vec_sub vc vb), (vec_sub vc va).
  rewrite (displacement_resolved ax self a b s va vb Ha Hb).
  rewrite (displacement_resolved ax self b c s vb vc Hb Hc).
  rewrite (displacement_resolved ax self a c s va vc Ha Hc).
  rewrite (displacement_resolved ax self a a s va va Ha Ha).
  rewrite (displacement_resolved ax self b a s vb va Hb Ha).
  rewrite vec_sub_self, <- vec_sub_reverse.
  repeat split. apply vec_sub_chain.
Qed.

(** X13.  Exact arithmetic.  On a centred axis whose map has entries
    under 0 and under [i >= 1], the displacement between the mirrored
    points [-i] and [i] is twice the displacement from [-i] to the
    centre, which is [IndexMap[0] - IndexMap[i]]. *)
Theorem mirrored_span ax self s l index b c :
  SymmetryFlag ax self = Some 1 ->
  IndexMapRef ax self = Some l ->
  1 <= index ->
  deref s l !! 0 = Some b ->
  deref s l !! index = Some c ->
  displacementBetween ax self (- index) 0 s = (Return (vec_sub b c), s) /\
  displacementBetween ax self (- index) index s =
    (Return (vec_add (vec_sub b c) (vec_sub b c)), s).
Proof.
  intros Hcen Hmap Hge Hb Hc.
  assert (Hneg : resolveOffset ax self (- index) s = (Return (Some c), s)).
  { rewrite (resolveOffset_run ax self _ s 1 l Hcen Hmap).
    unfold offset_of. change (1 =? 1) with true. cbv iota.
    destruct (Z.leb_spec (- index) 0) as [_ | ?]; [| lia].
    rewrite Z.abs_opp, Z.abs_eq by lia. by rewrite Hc. }
  assert (Hzero : resolveOffset ax self 0 s = (Return (Some b), s)).
  { rewrite (resolveOffset_run ax self _ s 1 l Hcen Hmap).
    unfold offset_of. change (1 =? 1) with true.
    change (0 <=? 0) with true. cbv iota. change (Z.abs 0) with 0.
    by rewrite Hb. }
  assert (Hpos : resolveOffset ax self index s =
                   (Return (Some (vec_add b (vec_sub b c))), s)).
  { rewrite (resolveOffset_run ax self _ s 1 l Hcen Hmap).
    unfold offset_of. change (1 =? 1) with true. cbv iota.
    destruct (Z.leb_spec index 0) as [? | _]; [lia |].
    by rewrite Hb, Hc. }
  rewrite (displacement_resolved ax self _ _ s _ _ Hneg Hzero).
  rewrite (displacement_resolved ax self _ _ s _ _ Hneg Hpos).
  split; [reflexivity |]. by rewrite vec_sub_reflected.
Qed.

(** X14.  Exact arithmetic.  With the origin set, the absolute positions
    of two indices that resolve differ by the displacement between
    them. *)
Theorem position_difference ax self s o a b va vb :
  pos_o self = Some o ->
  resolveOffset ax self a s = (Return (Some va), s) ->
  resolveOffset ax self b s = (Return (Some vb), s) ->
  exists pa pb dab,
    positionAlong ax self a s = (Return pa, s) /\
    positionAlong ax self b s = (Return pb, s) /\
    displacementBetween ax self a b s = (Return dab, s) /\
    vec_sub pb pa = dab.
Proof.
  intros Ho Ha Hb.
  exists (vec_add o va), (vec_add o vb), (vec_sub vb va).
  split; [by apply position_resolved |].
  split; [by apply position_resolved |].
  split; [by apply displacement_resolved |].
  apply vec_sub_translate.
Qed.

(** X15.  Exact arithmetic.  [set_pos_o] and [get_pos_dwh] undo each
    other at the anchor: once [set_pos_o] has run, the absolute position
    of the point at the three anchor indices is the placement point
    [pos]. *)
Theorem anchor_is_at_pos self s adjust p pd pw ph od ow oh :
  pos self = Some p ->
  pos_d self = Some pd ->
  pos_w self = Some pw ->
  pos_h self = Some ph ->
  resolveOffset Depth self pd s = (Return (Some od), s) ->
  resolveOffset Width self pw s = (Return (Some ow), s) ->
  resolveOffset Height self ph s = (Return (Some oh), s) ->
  exists self',
    set_pos_o self adjust s = (Return self', s) /\
    get_pos_dwh self' pd pw ph s = (Return p, s).
Proof.
  intros Hp Hpd Hpw Hph Hd Hw Hh.
  eexists. split.
  { by apply (set_pos_o_run self s adjust p pd pw ph od ow oh). }
  cbv zeta.
  set (to_o := vec_negative (vec_add (vec_add od ow) oh)).
  set (self' := if adjust =? 1
                then with_pos_o_adjust to_o (with_pos_o (vec_add p to_o) self)
                else with_pos_o (vec_add p to_o) self).
  rewrite (get_pos_dwh_resolved self' s (vec_add p to_o) pd pw ph od ow oh);
    try (subst self'; destruct (adjust =? 1); done).
  f_equal. f_equal. subst to_o.
  rewrite (vec_add_assoc _ od ow), (vec_add_assoc _ (vec_add od ow) oh).
  rewrite vec_add_assoc, vec_negative_add. apply vec_add_V0.
Qed.

End Exact.

End PositionMore.

Lemma displacement_failures_witness :
  displacementBetween Depth sample_frame 1 7 sample_store =
    (Raise (AttributeError "sub"),
     logged "pos_d key not defined 7" sample_store) /\
  displacementBetween Depth sample_frame 7 1 sample_store =
    (Raise TypeError, logged "pos_d key not defined 7" sample_store).
Proof.
  destruct (displacement_failures Depth sample_frame 1 7 sample_store)
    as [Hend _].
  destruct (displacement_failures Depth sample_frame 7 1 sample_store)
    as [_ Hstart].
  split.
  - apply Hend. vm_compute. reflexivity.
  - apply (Hstart (mkZvec 8 0 0)); vm_compute; reflexivity.
Defined.

Lemma position_failures_witness :
  positionAlong Depth sample_frame 7 sample_store
    = (Raise (AttributeError "pos_o"), sample_store) /\
  get_pos_dwh sample_frame 7 7 7 sample_store
    = (Raise (AttributeError "pos_o"), sample_store) /\
  positionAlong Depth (with_pos_o (mkZvec 2 12 30) sample_frame) 7
                sample_store
    = (Raise TypeError, logged "pos_d key not defined 7" sample_store) /\
  get_pos_dwh (with_pos_o (mkZvec 2 12 30) sample_frame) 7 7 7 sample_store
    = (Raise TypeError, logged "pos_d key not defined 7" sample_store) /\
  get_pos_dwh (with_pos_o (mkZvec 2 12 30) sample_frame) 1 7 7 sample_store
    = (Raise TypeError, logged "pos_w key not defined7" sample_store) /\
  get_pos_dwh (with_pos_o (mkZvec 2 12 30) sample_frame) 1 2 7 sample_store
    = (Raise TypeError, logged "pos_h key not defined7" sample_store).
Proof.
  destruct (position_failures Depth sample_frame 7 sample_store)
    as [Hunset _].
  destruct (position_failures Depth
              (with_pos_o (mkZvec 2 12 30) sample_frame) 7 sample_store)
    as (_ & Hset & Hdepth & Hwidth & Hheight).
  destruct (Hunset eq_refl 7 7 7) as [Hone Hall].
  split; [exact Hone |]. split; [exact Hall |].
  split.
  { apply (Hset (mkZvec 2 12 30)); [reflexivity |]. vm_compute. reflexivity. }
  split.
  { apply (Hdepth (mkZvec 2 12 30)); [reflexivity |].
    vm_compute. reflexivity. }
  split.
  { apply (Hwidth (mkZvec 2 12 30) 1 7 (mkZvec 8 0 0)); [reflexivity | |];
      vm_compute; reflexivity. }
  apply (Hheight (mkZvec 2 12 30) 1 2 (mkZvec 8 0 0) (mkZvec 0 8 0));
    [reflexivity | | |]; vm_compute; reflexivity.
Defined.

Lemma set_pos_o_bad_anchor_raises_witness :
  set_pos_o (with_pos_d 7 sample_frame) 1 sample_store =
    (Raise TypeError, logged "pos_d key not defined 7" sample_store) /\
  set_pos_o (with_pos_h 7 sample_frame) 1 sample_store =
    (Raise TypeError, logged "pos_h key not defined7" sample_store).
Proof.
  destruct (set_pos_o_bad_anchor_raises (with_pos_d 7 sample_frame)
              sample_store 1 7 2 0 eq_refl eq_refl eq_refl) as [Hfirst _].
  destruct (set_pos_o_bad_anchor_raises (with_pos_h 7 sample_frame)
              sample_store 1 1 2 7 eq_refl eq_refl eq_refl) as [_ Hlast].
  split.
  - apply (Hfirst None (Some (mkZvec 0 8 0))
             (logged "pos_d key not defined 7" sample_store));
      [vm_compute; reflexivity | vm_compute; reflexivity | by left].
  - apply (Hlast (mkZvec 8 0 0) (mkZvec 0 8 0)); vm_compute; reflexivity.
Defined.

Lemma set_pos_o_again_witness :
  exists self1 self2,
    set_pos_o sample_frame 1 sample_store = (Return self1, sample_store) /\
    set_pos_o self1 0 sample_store = (Return self2, sample_store) /\
    pos_o self2 = pos_o self1 /\
    (0 <> 1 -> self2 = self1) /\
    (1 = 1 -> pos_o_adjust self2 = pos_o_adjust self1).
Proof.
  apply (set_pos_o_again sample_frame sample_store 1 0
           (mkZvec 10 20 30) 1 2 0
           (mkZvec 8 0 0) (mkZvec 0 8 0) (mkZvec 0 0 0));
    first [reflexivity | vm_compute; reflexivity].
Defined.

Lemma displacement_algebra_witness :
  exists dab dbc dac,
    displacementBetween Depth sample_frame 0 1 sample_store
      = (Return dab, sample_store) /\
    displacementBetween Depth sample_frame 1 2 sample_store
      = (Return dbc, sample_store) /\
    displacementBetween Depth sample_frame 0 2 sample_store
      = (Return dac, sample_store) /\
    displacementBetween Depth sample_frame 0 0 sample_store
      = (Return V0, sample_store) /\
    displacementBetween Depth sample_frame 1 0 sample_store
      = (Return (vec_negative dab), sample_store) /\
    vec_add dab dbc = dac.
Proof.
  apply (displacement_algebra Depth sample_frame sample_store 0 1 2
           (mkZvec 5 0 0) (mkZvec 8 0 0) (mkZvec 10 0 0));
    vm_compute; reflexivity.
Defined.

Lemma mirrored_span_witness :
  displacementBetween Depth sample_frame (- 1) 0 sample_store
    = (Return (vec_sub (mkZvec 5 0 0) (mkZvec 2 0 0)), sample_store) /\
  displacementBetween Depth sample_frame (- 1) 1 sample_store
    = (Return (vec_add (vec_sub (mkZvec 5 0 0) (mkZvec 2 0 0))
                       (vec_sub (mkZvec 5 0 0) (mkZvec 2 0 0))),
       sample_store).
Proof.
  apply (mirrored_span Depth sample_frame sample_store 1%positive 1);
    [reflexivity | reflexivity | lia | reflexivity | reflexivity].
Defined.

Lemma position_difference_witness :
  exists pa pb dab,
    positionAlong Width (with_pos_o (mkZvec 2 12 30) sample_frame) 1
                  sample_store = (Return pa, sample_store) /\
    positionAlong Width (with_pos_o (mkZvec 2 12 30) sample_frame) 2
                  sample_store = (Return pb, sample_store) /\
    displacementBetween Width (with_pos_o (mkZvec 2 12 30) sample_frame) 1 2
                        sample_store = (Return dab, sample_store) /\
    vec_sub pb pa = dab.
Proof.
  apply (position_difference Width
           (with_pos_o (mkZvec 2 12 30) sample_frame) sample_store
           (mkZvec 2 12 30) 1 2 (mkZvec 0 4 0) (mkZvec 0 8 0));
    first [reflexivity | vm_compute; reflexivity].
Defined.

Lemma anchor_is_at_pos_witness :
  exists self',
    set_pos_o sample_frame 1 sample_store = (Return self', sample_store) /\
    get_pos_dwh self' 1 2 0 sample_store
      = (Return (mkZvec 10 20 30), sample_store).
Proof.
  apply (anchor_is_at_pos sample_frame sample_store 1
           (mkZvec 10 20 30) 1 2 0
           (mkZvec 8 0 0) (mkZvec 0 8 0) (mkZvec 0 0 0));
    first [reflexivity | vm_compute; reflexivity].
Defined.

(** ** Registration and synthesis *)

Section DictMore.
Context {A : Type}.
Implicit Types (d : pydict A) (k : pyname).

Lemma dict_setitem_fresh k (v : A) d :
  k ∉ dict_keys d -> dict_setitem k v d = d ++ [(k, v)].
Proof.
  unfold dict_keys. induction d as [| [k' v'] d IH]; simpl; [done |].
  intros Hnotin. apply not_elem_of_cons in Hnotin as [Hne Hnotin].
  rewrite decide_False by done. f_equal. by apply IH.
Qed.

Lemma dict_get_NoDup k (v : A) d :
  NoDup (dict_keys d) -> (k, v) ∈ d -> dict_get k d = Some v.
Proof.
  unfold dict_keys. induction d as [| [k' v'] d IH]; simpl.
  - intros _ Hin. by apply elem_of_nil in Hin.
  - intros [Hnotin Hnodup]%NoDup_cons Hin.
    apply elem_of_cons in Hin as [Heq | Hin].
    + inversion Heq; subst. by rewrite decide_True.
    + rewrite decide_False; [by apply IH |].
      intros ->. apply Hnotin. apply list_elem_of_fmap.
      by exists (k, v).
Qed.

Lemma dict_keys_app d1 d2 : dict_keys (d1 ++ d2) = dict_keys d1 ++ dict_keys d2.
Proof. unfold dict_keys. apply fmap_app. Qed.

End DictMore.

Section CompositionMore.
Context {V Shape : Type} `{Vector V} `{ShapeKernel Shape}.
Implicit Types (self child : Obj3D (V := V) (Shape := Shape)).
Implicit Types (s : store (V := V)) (r : ChildRecord Shape).
Implicit Types (calls : list (Obj3D (V := V) (Shape := Shape) * Z * pyname)).

Lemma registrable_record child :
  registrable child ->
  exists cd cw ch cs,
    d_o child = Some cd /\ w_o child = Some cw /\ h_o child = Some ch /\
    shp child = Some cs /\
    record_of child = Some (mkChildRecord cd cw ch cs).
Proof.
  intros ([cd Hcd] & [cw Hcw] & [ch Hch] & [cs Hcs]).
  exists cd, cw, ch, cs. unfold record_of.
  by rewrite Hcd, Hcw, Hch, Hcs.
Qed.

(** X16.  [add_child] reads the child's three maps and its shape before
    it writes anything.  A child without one of them, such as an instance
    that has been through [__init__] but was never given a shape, is
    refused with [AttributeError], and nothing is registered. *)
Theorem add_child_needs_shape self child child_sum nm s :
  ~ registrable child ->
  exists attr,
    add_child self child child_sum nm s = (Raise (AttributeError attr), s) /\
    (is_Some (d_o child) -> is_Some (w_o child) -> is_Some (h_o child) ->
     attr = "shp").
Proof.
  intros Hnot. unfold add_child, child_record, bind, getattr.
  destruct (d_o child) as [cd |] eqn:Hcd; simpl.
  2: { eexists. split; [reflexivity |]. intros [? ?]; done. }
  destruct (w_o child) as [cw |] eqn:Hcw; simpl.
  2: { eexists. split; [reflexivity |]. intros _ [? ?]; done. }
  destruct (h_o child) as [ch |] eqn:Hch; simpl.
  2: { eexists. split; [reflexivity |]. intros _ _ [? ?]; done. }
  destruct (shp child) as [cs |] eqn:Hcs; simpl.
  - exfalso. apply Hnot. unfold registrable.
    rewrite Hcd, Hcw, Hch, Hcs. repeat split; by eexists.
  - by eexists.
Qed.

(** X17.  Registering under a name the tables do not have appends: the
    new record goes to the end of the full table and to the end of one
    sub-table, the additive one when [child_sum] is 1 and the subtractive
    one for every other value (not only 0); the other sub-table and every
    earlier entry stay as they were. *)
Theorem add_child_appends self child child_sum nm s dc ds dr :
  dict_child self = Some dc ->
  dict_child_sum self = Some ds ->
  dict_child_res self = Some dr ->
  registrable child ->
  nm ∉ dict_keys dc ->
  nm ∉ dict_keys ds ->
  nm ∉ dict_keys dr ->
  exists self' r,
    add_child self child child_sum nm s = (Return self', s) /\
    record_of child = Some r /\
    dict_child self' = Some (dc ++ [(nm, r)]) /\
    dict_child_sum self' =
      Some (if child_sum =? 1 then ds ++ [(nm, r)] else ds) /\
    dict_child_res self' =
      Some (if child_sum =? 1 then dr else dr ++ [(nm, r)]).
Proof.
  intros Hdc Hds Hdr Hchild Hfc Hfs Hfr.
  destruct (registrable_record child Hchild)
    as (cd & cw & ch & cs & Hcd & Hcw & Hch & Hcs & Hrec).
  set (r := mkChildRecord cd cw ch cs) in *.
  destruct (registered_tables self r child_sum nm dc ds dr Hds Hdr)
    as (Hdc' & Hds' & Hdr').
  exists (registered self r child_sum nm dc ds dr), r.
  split; [by apply add_child_run |]. split; [exact Hrec |].
  rewrite Hdc', Hds', Hdr'.
  rewrite !dict_setitem_fresh by done. done.
Qed.

Lemma add_children_fresh calls :
  forall self s dc ds dr,
    dict_child self = Some dc ->
    dict_child_sum self = Some ds ->
    dict_child_res self = Some dr ->
    Forall (fun call => registrable call.1.1) calls ->
    NoDup (call_name <$> calls) ->
    Forall (fun call => (call_name call ∉ dict_keys dc) /\
                        (call_name call ∉ dict_keys ds) /\
                        (call_name call ∉ dict_keys dr)) calls ->
    exists self',
      add_children self calls s = (Return self', s) /\
      dict_child self' = Some (dc ++ call_entries calls) /\
      dict_child_sum self' = Some (ds ++ tagged_entries true calls) /\
      dict_child_res self' = Some (dr ++ tagged_entries false calls).
Proof.
  induction calls as [| [[child child_sum] nm] calls IH];
    intros self s dc ds dr Hdc Hds Hdr Hreg Hnodup Hfresh; simpl.
  - exists self. unfold call_entries, tagged_entries. simpl.
    by rewrite !app_nil_r.
  - apply Forall_cons in Hreg as [Hchild Hreg].
    apply NoDup_cons in Hnodup as [Hnotin Hnodup].
    apply Forall_cons in Hfresh as [(Hfc & Hfs & Hfr) Hfresh].
    simpl in Hchild, Hfc, Hfs, Hfr. unfold call_name in Hfc, Hfs, Hfr.
    simpl in Hfc, Hfs, Hfr.
    destruct (registrable_record child Hchild)
      as (cd & cw & ch & cs & Hcd & Hcw & Hch & Hcs & Hrec).
    set (r := mkChildRecord cd cw ch cs) in *.
    destruct (registered_tables self r child_sum nm dc ds dr Hds Hdr)
      as (Hdc' & Hds' & Hdr').
    rewrite !dict_setitem_fresh in Hdc', Hds', Hdr' by done.
    unfold bind.
    rewrite (add_child_run self child child_sum nm s dc ds dr cd cw ch cs)
      by done.
    fold r.
    destruct (IH (registered self r child_sum nm dc ds dr) s _ _ _
                Hdc' Hds' Hdr' Hreg Hnodup) as (self' & Hrun & Hc & Hs & Hr).
    { apply Forall_forall. intros call Hcall.
      pose proof (proj1 (Forall_forall _ _) Hfresh call Hcall)
        as (Hc1 & Hc2 & Hc3).
      assert (Hne : call_name call <> nm).
      { intros Heq. apply Hnotin. rewrite <- Heq.
        apply list_elem_of_fmap. by exists call. }
      assert (Hnew : forall d : pydict (ChildRecord Shape),
                call_name call ∉ dict_keys d ->
                call_name call ∉ dict_keys (d ++ [(nm, r)])).
      { intros d Hd. rewrite dict_keys_app. apply not_elem_of_app.
        split; [exact Hd |]. apply not_elem_of_cons.
        split; [exact Hne | apply not_elem_of_nil]. }
      destruct (child_sum =? 1); repeat split; auto. }
    exists self'. split; [exact Hrun |].
    rewrite Hc, Hs, Hr. unfold call_entries, tagged_entries. simpl.
    unfold call_name at 1 3 5. simpl. rewrite Hrec. simpl.
    destruct (child_sum =? 1); simpl; by rewrite <- ?app_assoc.
Qed.

Lemma call_entries_keys calls :
  Forall (fun call => registrable call.1.1) calls ->
  dict_keys (call_entries calls) = call_name <$> calls.
Proof.
  unfold dict_keys, call_entries.
  induction 1 as [| call calls Hchild _ IH]; simpl; [done |].
  destruct (registrable_record _ Hchild) as (? & ? & ? & ? & _ & _ & _ & _ & ->).
  simpl. by f_equal.
Qed.

Lemma tagged_entries_sub additive calls entry :
  entry ∈ tagged_entries additive calls -> entry ∈ call_entries calls.
Proof.
  unfold tagged_entries, call_entries. rewrite !list_elem_of_omap.
  intros (call & Hcall & Hentry). exists call. split; [exact Hcall |].
  by destruct (Bool.eqb (call.1.2 =? 1) additive).
Qed.

Lemma tagged_entries_agrees additive calls :
  Forall (fun call => registrable call.1.1) calls ->
  NoDup (call_name <$> calls) ->
  agrees (call_entries calls) (tagged_entries additive calls).
Proof.
  intros Hreg Hnodup. unfold agrees. apply Forall_forall.
  intros [k r] Hentry. simpl.
  rewrite (dict_get_NoDup k r (call_entries calls)); [done | |].
  - by rewrite call_entries_keys.
  - by apply (tagged_entries_sub additive).
Qed.

Lemma tagged_entries_shapes calls :
  Forall (fun call => registrable call.1.1) calls ->
  shapes_of (tagged_entries true calls) = additive_shapes calls /\
  shapes_of (tagged_entries false calls) = subtractive_shapes calls.
Proof.
  unfold shapes_of, dict_values, tagged_entries, additive_shapes,
    subtractive_shapes.
  induction 1 as [| call calls Hchild _ [IHa IHs]]; simpl; [done |].
  destruct (registrable_record _ Hchild)
    as (? & ? & ? & cs & _ & _ & _ & -> & ->).
  destruct (call.1.2 =? 1); simpl; split; by f_equal.
Qed.

(** X18.  What [add_child] and [make_parent] do together.  On a parent
    with empty tables, after registering children under names that are
    all different, some as additive and some as subtractive,
    [make_parent] sets the shape to the fuse of the additive children's
    shapes, in the order they were registered, with the fuse of the
    subtractive children's shapes, in the order they were registered, cut
    from it. *)
Theorem make_parent_registration_order self calls name s :
  dict_child self = Some [] ->
  dict_child_sum self = Some [] ->
  dict_child_res self = Some [] ->
  Forall (fun call => registrable call.1.1) calls ->
  NoDup (call_name <$> calls) ->
  additive_shapes calls <> [] ->
  subtractive_shapes calls <> [] ->
  exists self',
    add_children self calls s = (Return self', s) /\
    make_parent self' name s =
      (Return (with_shp (cut (fuseshplist (additive_shapes calls))
                             (fuseshplist (subtractive_shapes calls)))
                        self',
               ReturnedSelf), s).
Proof.
  intros Hdc Hds Hdr Hreg Hnodup Hadd Hsub.
  destruct (add_children_fresh calls self s [] [] [] Hdc Hds Hdr Hreg Hnodup)
    as (self' & Hrun & Hc & Hs & Hr).
  { apply Forall_forall. intros call _. unfold dict_keys. simpl.
    repeat split; apply not_elem_of_nil. }
  simpl in Hc, Hs, Hr.
  exists self'. split; [exact Hrun |].
  destruct (tagged_entries_shapes calls Hreg) as [Hshapes_a Hshapes_s].
  destruct (agrees_shapes _ _ (tagged_entries_agrees true calls Hreg Hnodup))
    as [Hunder_a Hkeys_a].
  destruct (agrees_shapes _ _ (tagged_entries_agrees false calls Hreg Hnodup))
    as [Hunder_s Hkeys_s].
  rewrite <- Hshapes_a, <- Hshapes_s, <- Hunder_a, <- Hunder_s.
  apply (make_parent_run self' name s _ _ _ Hc Hs Hr);
    [ | left | exact Hkeys_a | exact Hkeys_s ].
  - intros Hnil. apply Hadd. rewrite <- Hshapes_a.
    destruct (tagged_entries true calls) as [| entry rest] eqn:Htag; [done |].
    assert (Hin : entry ∈ call_entries calls).
    { apply (tagged_entries_sub true). rewrite Htag. by left. }
    rewrite Hnil in Hin. by apply elem_of_nil in Hin.
  - intros Hnil. apply Hadd. by rewrite <- Hshapes_a, Hnil.
Qed.

(** *** What [make_parent] leaves alone *)

Lemma append_child_shp_with_shp x self keys lst s :
  append_child_shp (with_shp x self) keys lst s
  = append_child_shp self keys lst s.
Proof.
  revert lst. induction keys as [| key keys IH]; intros lst; simpl; [done |].
  unfold bind, getattr. destruct (dict_child self) as [dc |]; simpl; [| done].
  destruct (dict_get key dc); [apply IH | done].
Qed.

Lemma append_child_shp_outcome self dc keys lst s :
  dict_child self = Some dc ->
  (exists l, append_child_shp self keys lst s = (Return l, s)) \/
  append_child_shp self keys lst s = (Raise KeyError, s).
Proof.
  intros Hdc. revert lst.
  induction keys as [| key keys IH]; intros lst; simpl.
  - left. by eexists.
  - unfold bind, getattr. rewrite Hdc. unfold ret. cbv beta iota.
    destruct (dict_get key dc); [apply IH | by right].
Qed.

Lemma append_child_shp_missing self dc keys lst s k :
  dict_child self = Some dc ->
  k ∈ keys ->
  k ∉ dict_keys dc ->
  append_child_shp self keys lst s = (Raise KeyError, s).
Proof.
  intros Hdc Hin Hmiss. revert lst.
  induction keys as [| key keys IH]; intros lst; simpl.
  - by apply elem_of_nil in Hin.
  - unfold bind, getattr. rewrite Hdc. unfold ret at 1.
    destruct (dict_get key dc) as [r |] eqn:Hget; [| done].
    apply elem_of_cons in Hin as [-> | Hin].
    + exfalso. apply Hmiss. apply dict_get_is_Some. by eexists.
    + by apply IH.
Qed.

#[local] Arguments append_child_shp : simpl never.

Lemma make_parent_with_shp x self name s :
  make_parent (with_shp x self) name s =
    match make_parent self name s with
    | (Return (r, ReturnedSelf), s') => (Return (r, ReturnedSelf), s')
    | (Return (_, ReturnedNone), s') =>
        (Return (with_shp x self, ReturnedNone), s')
    | (Raise e, s') => (Raise e, s')
    end.
Proof.
  unfold make_parent, bind, getattr.
  cbn [dict_child dict_child_sum dict_child_res with_shp].
  destruct (dict_child self) as [[| e dc] |]; simpl; try done.
  destruct (dict_child_sum self) as [[| e1 ds] |]; simpl; try done;
    repeat (first
      [ rewrite append_child_shp_with_shp
      | match goal with
        | |- context [append_child_shp self ?ks ?l ?st] =>
            destruct (append_child_shp self ks l st) as [[? | ?] ?]
        end
      | match goal with
        | |- context [dict_child_res self] =>
            destruct (dict_child_res self) as [[| e2 dr] |]
        end ];
      simpl; try done).
Qed.

Lemma make_parent_cases self name s :
  snd (make_parent self name s) = s /\
  forall self' out,
    fst (make_parent self name s) = Return (self', out) ->
    (out = ReturnedNone /\ self' = self) \/
    (out = ReturnedSelf /\ exists x, self' = with_shp x self).
Proof.
  unfold make_parent, bind, getattr.
  destruct (dict_child self) as [dc |] eqn:Hdc; simpl; [| done].
  destruct dc as [| e dc]; simpl.
  { split; [done |]. intros ? ? [= <- <-]. by left. }
  destruct (dict_child_sum self) as [ds |]; simpl; [| done].
  destruct ds as [| e1 ds]; simpl;
    repeat (first
      [ match goal with
        | |- context [append_child_shp self ?ks ?l ?st] =>
            destruct (append_child_shp_outcome self _ ks l st Hdc)
              as [[? ->] | ->]
        end
      | match goal with
        | |- context [dict_child_res self] =>
            destruct (dict_child_res self) as [[| e2 dr] |]
        end ];
      simpl; try done);
    (split; [done |]); intros ? ? [= <- <-];
    first [ by left | right; split; [done | by eexists] ].
Qed.

(** X19.  [make_parent] does not use its [name] argument, leaves the
    store alone whether it returns or raises, and, when it returns,
    hands the parent back either untouched or with nothing but [shp]
    reassigned: the tables, the index maps and the positions are what
    they were. *)
Theorem make_parent_changes_shape_only self name name' s :
  make_parent self name' s = make_parent self name s /\
  snd (make_parent self name s) = s /\
  forall self' out,
    fst (make_parent self name s) = Return (self', out) ->
    self' = self \/ exists x, self' = with_shp x self.
Proof.
  split; [reflexivity |].
  destruct (make_parent_cases self name s) as [Hstore Hcases].
  split; [exact Hstore |].
  intros self' out Hrun.
  destruct (Hcases self' out Hrun) as [[_ ->] | [_ Hshape]]; [by left | by right].
Qed.

(** X20.  [make_parent] is idempotent: run again on the parent it handed
    back, it hands back the same parent, with the same shape. *)
Theorem make_parent_idempotent self name s self' out s' :
  make_parent self name s = (Return (self', out), s') ->
  make_parent self' name s' = (Return (self', out), s').
Proof.
  intros Hrun.
  destruct (make_parent_cases self name s) as [Hstore Hcases].
  rewrite Hrun in Hstore, Hcases. simpl in Hstore. subst s'.
  destruct (Hcases self' out eq_refl) as [[-> ->] | [-> [x ->]]];
    [exact Hrun |].
  rewrite make_parent_with_shp. by rewrite Hrun.
Qed.

(** X21.  A parent whose full table has children while both sub-tables
    are empty is left as it is: [make_parent] returns [None] and assigns
    no shape. *)
Theorem make_parent_untagged_children self name s dc :
  dict_child self = Some dc ->
  dict_child_sum self = Some [] ->
  dict_child_res self = Some [] ->
  make_parent self name s = (Return (self, ReturnedNone), s).
Proof.
  intros Hdc Hds Hdr. unfold make_parent, bind, getattr.
  rewrite Hdc, Hds, Hdr. by destruct dc.
Qed.

(** X22.  A sub-table naming a child the (non-empty) full table does not
    have makes [make_parent] raise [KeyError]; no shape is assigned and
    the store is as it was. *)
Theorem make_parent_stale_name self name s dc ds dr k :
  dict_child self = Some dc ->
  dict_child_sum self = Some ds ->
  dict_child_res self = Some dr ->
  dc <> [] ->
  k ∈ dict_keys ds \/ k ∈ dict_keys dr ->
  k ∉ dict_keys dc ->
  make_parent self name s = (Raise KeyError, s).
Proof.
  intros Hdc Hds Hdr Hne Hin Hmiss.
  unfold make_parent, bind, getattr. rewrite Hdc, Hds, Hdr. unfold ret.
  destruct dc as [| e dc']; [done |].
  destruct ds as [| e1 ds'], dr as [| e2 dr']; cbn [length Nat.eqb];
    [ destruct Hin as [Hin | Hin]; by apply elem_of_nil in Hin | .. ];
    match goal with
    | |- context [append_child_shp self ?ks [] s] =>
        destruct (append_child_shp_outcome self _ ks [] s Hdc)
          as [[l Hfirst] | Hfirst]; rewrite Hfirst
    end; try done;
    (destruct Hin as [Hin | Hin];
     [ rewrite (append_child_shp_missing self _ _ [] s k Hdc Hin Hmiss)
         in Hfirst; discriminate
     | by rewrite (append_child_shp_missing self _ _ [] s k Hdc Hin Hmiss) ]).
Qed.

(** ** Naming *)

(** X23.  The first non-empty name sticks: once [set_name] has been
    called with a non-empty name or a non-empty default, a later call
    with [change] other than 1 changes nothing, whatever names it is
    given. *)
Theorem set_name_first_wins self n1 d1 c1 n2 d2 c2 :
  truthy n1 = true \/ truthy d1 = true ->
  c2 <> 1 ->
  set_name (set_name self n1 d1 c1) n2 d2 c2 = set_name self n1 d1 c1.
Proof.
  intros Hnonempty Hc2.
  assert (Hnamed : exists x, name (set_name self n1 d1 c1) = Some x /\
                             truthy x = true).
  { unfold set_name.
    destruct (name self) as [cur |] eqn:Hname.
    - destruct (truthy cur) eqn:Hcur; simpl.
      + destruct (c1 =? 1).
        * destruct (truthy n1) eqn:Hn1; simpl; eexists; split;
            try reflexivity; [done | by destruct Hnonempty].
        * exists cur. by rewrite Hname.
      + destruct (truthy n1) eqn:Hn1; simpl; eexists; split;
          try reflexivity; [done | by destruct Hnonempty].
    - destruct (truthy n1) eqn:Hn1; simpl; eexists; split;
        try reflexivity; [done | by destruct Hnonempty]. }
  destruct Hnamed as (x & Hx & Htruthy).
  unfold set_name at 1. rewrite Hx, Htruthy. simpl.
  by destruct (Z.eqb_spec c2 1).
Qed.

(** X24.  [set_name] touches the attribute [name] and nothing else, and
    calling it twice with the same arguments is the same as calling it
    once. *)
Theorem set_name_idempotent self n d c :
  (set_name self n d c = self \/
   exists x, set_name self n d c = with_name x self) /\
  set_name (set_name self n d c) n d c = set_name self n d c.
Proof.
  unfold set_name.
  destruct (name self) as [cur |] eqn:Hname;
    [destruct (truthy cur) eqn:Hcur |];
    destruct (c =? 1) eqn:Hc; destruct (truthy n) eqn:Hn;
    destruct (truthy d) eqn:Hd; simpl;
    (split; [first [by left | right; by eexists] |]);
    rewrite ?Hname, ?Hcur, ?Hn, ?Hd, ?Hc; simpl;
    rewrite ?Hn; reflexivity.
Qed.

End CompositionMore.

Lemma add_child_needs_shape_witness :
  exists attr,
    add_child sample_frame zero_axis_frame 1 (Some "bare") sample_store
      = (Raise (AttributeError attr), sample_store) /\
    (is_Some (d_o zero_axis_frame) -> is_Some (w_o zero_axis_frame) ->
     is_Some (h_o zero_axis_frame) -> attr = "shp").
Proof.
  apply (add_child_needs_shape sample_frame zero_axis_frame 1 (Some "bare")
           sample_store).
  intros (_ & _ & _ & [cs Hcs]). discriminate.
Defined.

Lemma add_child_appends_witness :
  exists self' r,
    add_child plate_parent hole 0 (Some "hole") sample_store
      = (Return self', sample_store) /\
    record_of hole = Some r /\
    dict_child self' = Some ([(Some "placa", plate_record)] ++ [(Some "hole", r)]) /\
    dict_child_sum self' =
      Some (if 0 =? 1 then [(Some "placa", plate_record)] ++ [(Some "hole", r)]
            else [(Some "placa", plate_record)]) /\
    dict_child_res self' =
      Some (if 0 =? 1 then [] else [] ++ [(Some "hole", r)]).
Proof.
  apply (add_child_appends plate_parent hole 0 (Some "hole") sample_store
           [(Some "placa", plate_record)] [(Some "placa", plate_record)] []);
    [ reflexivity | reflexivity | reflexivity
    | repeat split; by eexists
    | intros Hin; apply list_elem_of_singleton in Hin; discriminate
    | intros Hin; apply list_elem_of_singleton in Hin; discriminate
    | apply not_elem_of_nil ].
Defined.

Lemma make_parent_registration_order_witness :
  exists self',
    add_children sample_frame
      [(plate, 1, Some "placa"); (hole, 0, Some "hole")] sample_store
      = (Return self', sample_store) /\
    make_parent self' (Some "placa perforada") sample_store =
      (Return (with_shp (Cut (Fuse [Primitive 1]) (Fuse [Primitive 2])) self',
               ReturnedSelf), sample_store).
Proof.
  destruct (make_parent_registration_order sample_frame
              [(plate, 1, Some "placa"); (hole, 0, Some "hole")]
              (Some "placa perforada") sample_store)
    as (self' & Hrun & Hmake);
    [ reflexivity | reflexivity | reflexivity
    | repeat constructor; by eexists
    | apply NoDup_cons; split;
        [ intros Hin; apply list_elem_of_singleton in Hin; discriminate
        | apply NoDup_singleton ]
    | discriminate | discriminate | ].
  exists self'. split; [exact Hrun | exact Hmake].
Defined.

Lemma make_parent_idempotent_witness :
  make_parent
    (with_shp (Cut (Fuse [Primitive 1]) (Fuse [Primitive 2])) perforated_parent)
    (Some "placa perforada") sample_store =
    (Return (with_shp (Cut (Fuse [Primitive 1]) (Fuse [Primitive 2]))
                      perforated_parent,
             ReturnedSelf), sample_store).
Proof.
  apply (make_parent_idempotent perforated_parent (Some "placa perforada")
           sample_store).
  reflexivity.
Defined.

Lemma make_parent_untagged_children_witness :
  make_parent (with_dict_child [(Some "placa", plate_record)] sample_frame)
              (Some "parent") sample_store
    = (Return (with_dict_child [(Some "placa", plate_record)] sample_frame,
               ReturnedNone), sample_store).
Proof.
  apply (make_parent_untagged_children _ _ _ [(Some "placa", plate_record)]);
    reflexivity.
Defined.

Lemma make_parent_stale_name_witness :
  make_parent (with_dict_child_res [(Some "ghost", hole_record)] plate_parent)
              (Some "parent") sample_store
    = (Raise KeyError, sample_store).
Proof.
  apply (make_parent_stale_name _ _ _
           [(Some "placa", plate_record)] [(Some "placa", plate_record)]
           [(Some "ghost", hole_record)] (Some "ghost"));
    [ reflexivity | reflexivity | reflexivity | discriminate
    | right; apply list_elem_of_singleton; reflexivity
    | intros Hin; apply list_elem_of_singleton in Hin; discriminate ].
Defined.

Lemma set_name_first_wins_witness :
  set_name (set_name blank None (Some "placa") 0 : Obj3D (V := Zvec) (Shape := solid))
           (Some "other") (Some "default") 0
    = set_name blank None (Some "placa") 0.
Proof.
  apply (set_name_first_wins blank None (Some "placa") 0
           (Some "other") (Some "default") 0); [by right | lia].
Defined.

Lemma make_parent_changes_shape_only_witness :
  make_parent perforated_parent (Some "other") sample_store
    = make_parent perforated_parent (Some "placa perforada") sample_store /\
  snd (make_parent perforated_parent (Some "placa perforada") sample_store)
    = sample_store /\
  (with_shp (Cut (Fuse [Primitive 1]) (Fuse [Primitive 2])) perforated_parent
     = perforated_parent \/
   exists x,
     with_shp (Cut (Fuse [Primitive 1]) (Fuse [Primitive 2])) perforated_parent
       = with_shp x perforated_parent).
Proof.
  destruct (make_parent_changes_shape_only perforated_parent
              (Some "placa perforada") (Some "other") sample_store)
    as (Hname & Hstore & Hshape).
  split; [exact Hname |]. split; [exact Hstore |].
  exact (Hshape _ ReturnedSelf eq_refl).
Defined.
